(** * The SEO Strategist backend: article lifecycle and analysis pipeline

    A shallow embedding of [backend/main.py]: the SQLAlchemy tables
    ([Project], [Article]), the pydantic models ([LinkOpportunity],
    [AnalysisResult], [AnalysisRequest]), the analyzer client
    ([analyze_with_claude]) and the routes that change or read the
    store ([create_project], [upload_excel], [analyze_article],
    [export_results]).

    Modelling conventions.
    - Python [int] is [Z]; Python [str] is [string], the UTF-8 encoding
      of the text; [None] is [option].
    - Python [float] values that occur here are decimal literals
      ([2.5], [2.3]) and [timedelta.total_seconds()], a number of
      microseconds over [10^6]; both are rationals, modelled in [Q].
    - Exceptions are values of [exn]; a computation that may raise has
      type [exn + A] ([inl] raises, [inr] returns).
    - What the process reads from outside is an [Env]: the readings of
      [datetime.utcnow()] and the replies of the HTTP endpoint, each
      indexed by how many were consumed so far.
    - Library functions whose behaviour depends on the installed version
      ([json.loads], pydantic field validation) are an interface,
      [PyRuntime]; the theorems hold for every implementation of it. *)

From Stdlib Require Import List ZArith QArith String Ascii Bool Arith Lia.
From Stdlib Require Import Sorting.Sorted Sorting.Permutation.
Import ListNotations.

Set Warnings "-register-all,-abstract-large-number".
#[local] Open Scope string_scope.
#[local] Open Scope Z_scope.

(** ** Exceptions *)

(** The exception classes the routes can meet.  [HTTPException] carries
    its status code, the fixed part of its [detail] and, when the detail
    was built as [f"...{str(e)}"], the exception [e] it renders. *)
Inductive exn : Type :=
| JSONDecodeError
| KeyError (key : string)
| IndexError
| TypeError
| AttributeError
| ValidationError
| RequestError
| ExcelError
| HTTPException (status_code : Z) (detail : string) (cause : option exn).

Definition result (A : Type) : Type := (exn + A)%type.

Definition bind {A B : Type} (c : result A) (k : A -> result B) : result B :=
  match c with
  | inl e => inl e
  | inr a => k a
  end.

Declare Scope py_scope.
Delimit Scope py_scope with py.
Notation "x <- c ;; k" := (bind c (fun x => k))
  (at level 61, c at next level, right associativity) : py_scope.
#[local] Open Scope py_scope.

Definition is_JSONDecodeError (e : exn) : bool :=
  match e with
  | JSONDecodeError => true
  | _ => false
  end.

(** ** JSON values, as [json.loads] builds them *)

Inductive json : Type :=
| JNull
| JBool (b : bool)
| JInt (n : Z)
| JFloat (x : Q)
| JStr (s : string)
| JList (items : list json)
| JDict (items : list (string * json)).

(** [d.get(k)] on a dict given by its items. A Python dict has each key
    once, so the first match is the only one. *)
Fixpoint dict_get (d : list (string * json)) (k : string) : option json :=
  match d with
  | [] => None
  | (k', v) :: d' => if String.eqb k' k then Some v else dict_get d' k
  end.

(** [j[k]] for a string key [k]. *)
Definition getitem_key (j : json) (k : string) : result json :=
  match j with
  | JDict d =>
      match dict_get d k with
      | Some v => inr v
      | None => inl (KeyError k)
      end
  | _ => inl TypeError
  end.

(** [j[0]]. *)
Definition getitem_0 (j : json) : result json :=
  match j with
  | JList (x :: _) => inr x
  | JList [] => inl IndexError
  | JStr (String c _) => inr (JStr (String c EmptyString))
  | JStr EmptyString => inl IndexError
  | JDict _ => inl (KeyError "0")
  | _ => inl TypeError
  end.

(** [for x in j]: the elements of a list, the keys of a dict, the
    characters of a string; anything else is not iterable. *)
Definition py_iter (j : json) : result (list json) :=
  match j with
  | JList xs => inr xs
  | JDict d => inr (map (fun kv => JStr (fst kv)) d)
  | JStr s => inr (map (fun c => JStr (String c EmptyString)) (list_ascii_of_string s))
  | _ => inl TypeError
  end.

(** A list comprehension whose element expression may raise: elements
    are built left to right and the first exception ends it. *)
Fixpoint comprehension {A B : Type} (f : A -> result B) (xs : list A) : result (list B) :=
  match xs with
  | [] => inr []
  | x :: xs' =>
      y <- f x ;;
      ys <- comprehension f xs' ;;
      inr (y :: ys)
  end.

(** ** The library interface *)

(** [json_loads s] is [None] when [json.loads(s)] raises
    [json.JSONDecodeError]. [validate_int] and [validate_str] are
    pydantic's validators of an [int] and of a [str] field ([None]: the
    value is refused). Which other values they coerce depends on the
    pydantic version; a value of the declared type is accepted as it
    is. *)
Class PyRuntime : Type := {
  json_loads : string -> option json;
  validate_int : json -> option Z;
  validate_str : json -> option string;
  validate_int_JInt : forall n, validate_int (JInt n) = Some n;
  validate_str_JStr : forall s, validate_str (JStr s) = Some s
}.

(** ** Pydantic models *)

Module LinkOpportunity.
Record t : Type := make {
  id : Z;
  rating : Z;
  location : string;
  context : string;
  old_text : string;
  new_text : string;
  reasoning : string;
  user_value : string
}.

(** [opp.dict()] *)
Definition dict (o : t) : json :=
  JDict [ ("id", JInt (id o));
          ("rating", JInt (rating o));
          ("location", JStr (location o));
          ("context", JStr (context o));
          ("old_text", JStr (old_text o));
          ("new_text", JStr (new_text o));
          ("reasoning", JStr (reasoning o));
          ("user_value", JStr (user_value o)) ].
End LinkOpportunity.

Module AnalysisResult.
Record t : Type := make {
  opportunities : list LinkOpportunity.t;
  processing_time : Q;
  article_type : string;
  reader_intent : string;
  best_strategy : string
}.

(** [result.dict()] *)
Definition dict (r : t) : json :=
  JDict [ ("opportunities", JList (map LinkOpportunity.dict (opportunities r)));
          ("processing_time", JFloat (processing_time r));
          ("article_type", JStr (article_type r));
          ("reader_intent", JStr (reader_intent r));
          ("best_strategy", JStr (best_strategy r)) ].
End AnalysisResult.

Module AnalysisRequest.
Record t : Type := make {
  article_id : nat;
  html_content : string;
  custom_prompt : option string;
  opportunity_count : option Z
}.
End AnalysisRequest.

Section Validation.
Context {RT : PyRuntime}.

(** A required field of a model built from keyword arguments. *)
Definition required {A : Type} (validate : json -> option A)
           (kwargs : list (string * json)) (field : string) : result A :=
  match dict_get kwargs field with
  | None => inl ValidationError
  | Some v =>
      match validate v with
      | None => inl ValidationError
      | Some a => inr a
      end
  end.

(** [LinkOpportunity] built from the keyword arguments [opp]: [opp]
    must be a mapping; the eight declared fields are required, other
    keys are ignored. *)
Definition LinkOpportunity_kwargs (opp : json) : result LinkOpportunity.t :=
  match opp with
  | JDict kw =>
      id <- required validate_int kw "id" ;;
      rating <- required validate_int kw "rating" ;;
      location <- required validate_str kw "location" ;;
      context <- required validate_str kw "context" ;;
      old_text <- required validate_str kw "old_text" ;;
      new_text <- required validate_str kw "new_text" ;;
      reasoning <- required validate_str kw "reasoning" ;;
      user_value <- required validate_str kw "user_value" ;;
      inr (LinkOpportunity.make id rating location context old_text new_text
                                reasoning user_value)
  | _ => inl TypeError
  end.

(** [analysis_data.get(key, default)] passed to a [str] field. *)
Definition get_str (d : list (string * json)) (key default : string) : result string :=
  let v := match dict_get d key with
           | Some v => v
           | None => JStr default
           end in
  match validate_str v with
  | Some s => inr s
  | None => inl ValidationError
  end.
End Validation.

(** ** The outside world *)

(** The single user message sent to the endpoint. The f-string
    [base_prompt] interpolates five values into a fixed English text;
    the message is kept as those five values. *)
Record Prompt : Type := {
  prompt_html : string;          (* html_content[:12000] *)
  prompt_to_url : string;
  prompt_main_kw : string;
  prompt_count : Z;
  prompt_custom : string         (* custom_prompt, or the empty string *)
}.

(** The JSON payload of [client.post]. *)
Record HttpRequest : Type := {
  req_url : string;
  req_model : string;
  req_max_tokens : Z;
  req_content : Prompt
}.

(** What [client.post] returned. *)
Record Response : Type := {
  status_code : Z;
  body : string
}.

(** [utcnow n] is the [n]-th reading of [datetime.utcnow()], in
    microseconds. [post n req] is the outcome of the [n]-th call of
    [client.post]: [None] when httpx raises (timeout after 30 s,
    connection failure), else the response. *)
Record Env : Type := {
  utcnow : nat -> Z;
  post : nat -> HttpRequest -> option Response
}.

(** ** The analyzer client *)

(** A byte that continues a character begun by an earlier byte. *)
Definition continuation (c : ascii) : bool :=
  (128 <=? nat_of_ascii c)%nat && (nat_of_ascii c <? 192)%nat.

(** [s[:n]]: the first [n] characters of [s]. A character is one byte
    that is no continuation followed by its continuation bytes; the
    slice ends before the character that would be one too many. *)
Fixpoint str_prefix (n : nat) (s : string) : string :=
  match s with
  | EmptyString => EmptyString
  | String c s' =>
      if continuation c then String c (str_prefix n s')
      else
        match n with
        | O => EmptyString
        | S n' => String c (str_prefix n' s')
        end
  end.

Section Analyzer.
Context {RT : PyRuntime}.

Definition base_prompt (html_content to_url main_kw : string)
           (custom_prompt : option string) (opportunity_count : Z) : Prompt :=
  {| prompt_html := str_prefix 12000 html_content;
     prompt_to_url := to_url;
     prompt_main_kw := main_kw;
     prompt_count := opportunity_count;
     prompt_custom := match custom_prompt with
                      | Some c => c
                      | None => EmptyString
                      end |}.

Definition messages_request (prompt : Prompt) : HttpRequest :=
  {| req_url := "https://api.anthropic.com/v1/messages";
     req_model := "claude-sonnet-4-20250514";
     req_max_tokens := 2000;
     req_content := prompt |}.

(** [json.loads(x)] where [x] need not be a string. *)
Definition loads (x : json) : result json :=
  match x with
  | JStr s =>
      match json_loads s with
      | Some j => inr j
      | None => inl JSONDecodeError
      end
  | _ => inl TypeError
  end.

(** [response.json()] *)
Definition response_json (response : Response) : result json :=
  match json_loads (body response) with
  | Some j => inr j
  | None => inl JSONDecodeError
  end.

(** [claude_response["content"][0]["text"]] *)
Definition response_text (claude_response : json) : result json :=
  content <- getitem_key claude_response "content" ;;
  first <- getitem_0 content ;;
  getitem_key first "text".

(** The [AnalysisResult(...)] call of the success branch. The
    arguments are evaluated in order: the comprehension over
    [analysis_data["opportunities"]], then the three [.get]. *)
Definition parsed_result (analysis_data : json) : result AnalysisResult.t :=
  opps <- getitem_key analysis_data "opportunities" ;;
  items <- py_iter opps ;;
  opportunities <- comprehension LinkOpportunity_kwargs items ;;
  match analysis_data with
  | JDict d =>
      article_type <- get_str d "article_type" "Article" ;;
      reader_intent <- get_str d "reader_intent" "Learning" ;;
      best_strategy <- get_str d "best_strategy" "Strategic placement" ;;
      inr (AnalysisResult.make opportunities (5 # 2) article_type reader_intent
                               best_strategy)
  | _ => inl AttributeError
  end.

(** The body of the [try], from the reply of [client.post] on. *)
Definition try_body (reply : option Response) : result AnalysisResult.t :=
  match reply with
  | None => inl RequestError
  | Some response =>
      if status_code response =? 200 then
        claude_response <- response_json response ;;
        text <- response_text claude_response ;;
        analysis_data <- loads text ;;
        parsed_result analysis_data
      else inl (HTTPException 500 "Claude API error" None)
  end.

(** The [except json.JSONDecodeError] branch. *)
Definition fallback (to_url main_kw : string) : AnalysisResult.t :=
  AnalysisResult.make
    [ LinkOpportunity.make 1 9
        "After ballistics comparison section"
        "Reader just absorbed detailed performance data"
        "These ballistics show the performance characteristics of the cartridge."
        ("These ballistics show the performance characteristics of the cartridge. For a comprehensive comparison with another classic round, see our detailed <a href='"
           ++ to_url ++ "'>" ++ main_kw ++ "</a> analysis.")
        "Perfect contextual placement - readers examining ballistics are prime for comparison content"
        "Provides immediate access to comprehensive comparison data" ]
    (23 # 10)
    "Ballistics Article"
    "Learning about cartridge performance"
    "Leverage post-data consumption moments".

(** [analyze_with_claude], given the reply its one [client.post]
    gets. *)
Definition analyze_with_claude_reply (reply : option Response)
           (to_url main_kw : string) : result AnalysisResult.t :=
  match try_body reply with
  | inl e => if is_JSONDecodeError e then inr (fallback to_url main_kw) else inl e
  | inr r => inr r
  end.
End Analyzer.

(** ** The tables *)

(** Primary keys are [str(uuid.uuid4())]: opaque and never repeated.
    They are modelled by the number of keys generated before them. *)
Definition ident : Type := nat.

Module Project.
Record t : Type := make {
  id : ident;
  name : string;
  created_at : Z;
  total_articles : Z;
  completed_articles : Z;
  status : string
}.

Definition set_total_articles (n : Z) (p : t) : t :=
  make (id p) (name p) (created_at p) n (completed_articles p) (status p).
Definition set_completed_articles (n : Z) (p : t) : t :=
  make (id p) (name p) (created_at p) (total_articles p) n (status p).
Definition set_status (s : string) (p : t) : t :=
  make (id p) (name p) (created_at p) (total_articles p) (completed_articles p) s.
End Project.

(** The [Text] column [analysis_results] holds [json.dumps(d)] for a
    dict [d] and is only ever read back through [json.loads]; it is
    modelled by [d] itself. Such a text is never empty, so the column is
    truthy exactly when it is not [None]. *)
Module Article.
Record t : Type := make {
  id : ident;
  project_id : ident;
  from_url : string;
  to_url : string;
  main_kw : string;
  html_content : option string;
  status : string;
  analysis_results : option json;
  processing_time : option Q;
  created_at : Z;
  order_index : Z
}.

Definition set_html_content (h : string) (a : t) : t :=
  make (id a) (project_id a) (from_url a) (to_url a) (main_kw a) (Some h)
       (status a) (analysis_results a) (processing_time a) (created_at a)
       (order_index a).
Definition set_status (s : string) (a : t) : t :=
  make (id a) (project_id a) (from_url a) (to_url a) (main_kw a) (html_content a)
       s (analysis_results a) (processing_time a) (created_at a) (order_index a).
Definition set_analysis_results (j : json) (a : t) : t :=
  make (id a) (project_id a) (from_url a) (to_url a) (main_kw a) (html_content a)
       (status a) (Some j) (processing_time a) (created_at a) (order_index a).
Definition set_processing_time (x : Q) (a : t) : t :=
  make (id a) (project_id a) (from_url a) (to_url a) (main_kw a) (html_content a)
       (status a) (analysis_results a) (Some x) (created_at a) (order_index a).
End Article.

(** The database file together with the counters of what the process
    consumed from outside. [projects] and [articles] are the rows as the
    database holds them, in insertion order. *)
Record World : Type := {
  projects : list Project.t;
  articles : list Article.t;
  uuids : nat;     (* primary keys generated so far *)
  ticks : nat;     (* readings of the clock so far *)
  calls : nat      (* calls of the endpoint so far *)
}.

Definition empty_world : World :=
  {| projects := []; articles := []; uuids := 0; ticks := 0; calls := 0 |}.

(** [db.query(Project).filter(Project.id == project_id).first()] *)
Definition project_first (w : World) (project_id : ident) : option Project.t :=
  find (fun p => Nat.eqb (Project.id p) project_id) (projects w).

(** [db.query(Article).filter(Article.id == article_id).first()] *)
Definition article_first (w : World) (article_id : ident) : option Article.t :=
  find (fun a => Nat.eqb (Article.id a) article_id) (articles w).

(** The filter [Article.project_id == project_id, Article.status ==
    "completed"]. *)
Definition completed_in (project_id : ident) (a : Article.t) : bool :=
  Nat.eqb (Article.project_id a) project_id && String.eqb (Article.status a) "completed".

(** The [UPDATE ... WHERE id = ?] that a commit issues for a changed
    object. *)
Definition update_article (a : Article.t) (rows : list Article.t) : list Article.t :=
  map (fun r => if Nat.eqb (Article.id r) (Article.id a) then a else r) rows.

Definition update_project (p : Project.t) (rows : list Project.t) : list Project.t :=
  map (fun r => if Nat.eqb (Project.id r) (Project.id p) then p else r) rows.

Definition with_articles (rows : list Article.t) (w : World) : World :=
  {| projects := projects w; articles := rows; uuids := uuids w; ticks := ticks w;
     calls := calls w |}.

Definition with_projects (rows : list Project.t) (w : World) : World :=
  {| projects := rows; articles := articles w; uuids := uuids w; ticks := ticks w;
     calls := calls w |}.

(** Reading the clock, taking fresh keys, calling the endpoint. *)
Definition tick (n : nat) (w : World) : World :=
  {| projects := projects w; articles := articles w; uuids := uuids w;
     ticks := (ticks w + n)%nat; calls := calls w |}.

Definition fresh (n : nat) (w : World) : World :=
  {| projects := projects w; articles := articles w; uuids := (uuids w + n)%nat;
     ticks := ticks w; calls := calls w |}.

Definition called (w : World) : World :=
  {| projects := projects w; articles := articles w; uuids := uuids w;
     ticks := ticks w; calls := S (calls w) |}.

(** ** Ingestion input *)

(** A cell of the sheet as pandas read it: a text, an empty cell, which
    pandas reads as [NaN], or any other value (a number, a date), given
    by what [str] returns on it. [str(cell)] is the cell itself for a
    text cell and the three letters [nan] for an empty one. *)
Inductive Cell : Type :=
| TextCell (s : string)
| EmptyCell
| OtherCell (str_image : string).

Definition py_str (c : Cell) : string :=
  match c with
  | TextCell s => s
  | EmptyCell => "nan"
  | OtherCell image => image
  end.

(** What is stored for a cell, kind by kind. *)
Inductive stored_as : Cell -> string -> Prop :=
| stored_text (s : string) : stored_as (TextCell s) s
| stored_empty : stored_as EmptyCell "nan"
| stored_other (image : string) : stored_as (OtherCell image) image.

(** The frame [pd.read_excel] returns: its column labels and its rows in
    sheet order, each row giving a cell for every label of the frame.
    [df.iterrows()] numbers the rows 0, 1, 2, ... *)
Record DataFrame : Type := {
  columns : list string;
  rows : list (string -> Cell)
}.

Definition required_columns : list string := ["From"; "To"; "Main KW"].

(** [col in df.columns] *)
Definition has_column (df : DataFrame) (col : string) : bool :=
  existsb (String.eqb col) (columns df).

(** [row[col]] *)
Definition row_get (df : DataFrame) (row : string -> Cell) (col : string) : result Cell :=
  if has_column df col then inr (row col) else inl (KeyError col).

(** An [Article(...)] constructed and added to the session, not yet
    flushed: the columns with a default ([id], [status], [created_at])
    are filled in by the INSERT. *)
Record NewArticle : Type := {
  new_from_url : string;
  new_to_url : string;
  new_main_kw : string;
  new_order_index : Z
}.

(** The [for index, row in df.iterrows()] loop from row number [index]
    on. *)
Fixpoint iterrows (df : DataFrame) (index : nat) (rs : list (string -> Cell))
  : result (list NewArticle) :=
  match rs with
  | [] => inr []
  | row :: rs' =>
      f <- row_get df row "From" ;;
      t <- row_get df row "To" ;;
      k <- row_get df row "Main KW" ;;
      rest <- iterrows df (S index) rs' ;;
      inr ({| new_from_url := py_str f; new_to_url := py_str t;
              new_main_kw := py_str k; new_order_index := Z.of_nat index |} :: rest)
  end.

(** ** Export rows *)

Record ExportRow : Type := {
  row_from_url : string;
  row_to_url : string;
  row_main_kw : string;
  row_rating : json;
  row_location : json;
  row_old_text : json;
  row_new_text : json;
  row_reasoning : json
}.

Record ExportResponse : Type := {
  results : list ExportRow;
  total_opportunities : Z
}.

(** [order_by(Article.order_index)]: ascending; rows with the same
    index stay in table order. *)
Fixpoint insert_by_index (a : Article.t) (l : list Article.t) : list Article.t :=
  match l with
  | [] => [a]
  | b :: l' =>
      if Article.order_index a <=? Article.order_index b
      then a :: l
      else b :: insert_by_index a l'
  end.

Definition order_by_index (l : list Article.t) : list Article.t :=
  fold_right insert_by_index [] l.

(** The dict appended for one opportunity of one article. *)
Definition export_row (article : Article.t) (opp : json) : result ExportRow :=
  rating <- getitem_key opp "rating" ;;
  location <- getitem_key opp "location" ;;
  old_text <- getitem_key opp "old_text" ;;
  new_text <- getitem_key opp "new_text" ;;
  reasoning <- getitem_key opp "reasoning" ;;
  inr {| row_from_url := Article.from_url article;
         row_to_url := Article.to_url article;
         row_main_kw := Article.main_kw article;
         row_rating := rating;
         row_location := location;
         row_old_text := old_text;
         row_new_text := new_text;
         row_reasoning := reasoning |}.

(** The rows one article contributes: none when [analysis_results] is
    falsy. *)
Definition export_article (article : Article.t) : result (list ExportRow) :=
  match Article.analysis_results article with
  | None => inr []
  | Some analysis =>
      opps <- getitem_key analysis "opportunities" ;;
      items <- py_iter opps ;;
      comprehension (export_row article) items
  end.

(** The outer [for article in articles] loop. *)
Fixpoint export_loop (arts : list Article.t) : result (list ExportRow) :=
  match arts with
  | [] => inr []
  | article :: arts' =>
      data <- export_article article ;;
      rest <- export_loop arts' ;;
      inr (data ++ rest)%list
  end.

(** ** The routes *)

Section Routes.
Context {RT : PyRuntime} (E : Env).

(** [POST /projects] *)
Definition create_project (w : World) (name : string) : World * result Project.t :=
  let db_project :=
    Project.make (uuids w) name (utcnow E (ticks w)) 0 0 "created" in
  (fresh 1 (tick 1 (with_projects (projects w ++ [db_project])%list w)), inr db_project).

(** The INSERTs of a commit: each row takes a fresh key and reads the
    clock for [created_at]. *)
Fixpoint insert_articles (project_id : ident) (uuid clock : nat) (news : list NewArticle)
  : list Article.t :=
  match news with
  | [] => []
  | n :: news' =>
      Article.make uuid project_id (new_from_url n) (new_to_url n) (new_main_kw n)
                   None "pending" None None (utcnow E clock) (new_order_index n)
      :: insert_articles project_id (S uuid) (S clock) news'
  end.

(** The body of the [try] of [upload_excel], up to the commit. [file]
    is what [pd.read_excel(file.file)] gives: [None] when it raises. *)
Definition read_articles (file : option DataFrame) : result (list NewArticle) :=
  match file with
  | None => inl ExcelError
  | Some df =>
      if forallb (has_column df) required_columns
      then iterrows df 0 (rows df)
      else inl (HTTPException 400 "Excel must contain columns: ['From', 'To', 'Main KW']"
                              None)
  end.

(** [POST /projects/{project_id}/upload-excel]; the response carries
    [total_articles]. *)
Definition upload_excel (w : World) (project_id : ident) (file : option DataFrame)
  : World * result Z :=
  match project_first w project_id with
  | None => (w, inl (HTTPException 404 "Project not found" None))
  | Some project =>
      match read_articles file with
      | inr news =>
          let articles_created := Z.of_nat (List.length news) in
          let project :=
            Project.set_status "ready"
              (Project.set_total_articles articles_created project) in
          let created := insert_articles project_id (uuids w) (ticks w) news in
          (fresh (List.length news)
             (tick (List.length news)
                (with_projects (update_project project (projects w))
                   (with_articles (articles w ++ created)%list w))),
           inr articles_created)
      | inl e => (w, inl (HTTPException 400 "Error processing Excel: " (Some e)))
      end
  end.

(** [analyze_with_claude]: one call of the endpoint. *)
Definition analyze_with_claude (w : World) (html_content to_url main_kw : string)
           (custom_prompt : option string) (opportunity_count : Z)
  : World * result AnalysisResult.t :=
  let prompt := base_prompt html_content to_url main_kw custom_prompt opportunity_count in
  let reply := post E (calls w) (messages_request prompt) in
  (called w, analyze_with_claude_reply reply to_url main_kw).

(** [request.opportunity_count or 3] *)
Definition count_or_3 (n : option Z) : Z :=
  match n with
  | None => 3
  | Some 0 => 3
  | Some k => k
  end.

(** [timedelta.total_seconds()] of a difference in microseconds. *)
Definition total_seconds (microseconds : Z) : Q := Qmake microseconds 1000000.

(** The [except Exception as e] branch of [analyze_article]. The
    commit writes every pending change of [article] with it. *)
Definition analysis_failed (w : World) (article : Article.t) (e : exn)
  : World * result AnalysisResult.t :=
  let article := Article.set_status "error" article in
  (with_articles (update_article article (articles w)) w,
   inl (HTTPException 500 "Analysis failed: " (Some e))).

(** [POST /articles/{article_id}/analyze]. The session is made with
    [autoflush=False]: a query reads the rows of the database, and the
    changes made on [article] since the last commit reach them only
    at the next [db.commit()]. *)
Definition analyze_article (w : World) (article_id : ident) (request : AnalysisRequest.t)
  : World * result AnalysisResult.t :=
  match article_first w article_id with
  | None => (w, inl (HTTPException 404 "Article not found" None))
  | Some article =>
      let start_time := utcnow E (ticks w) in
      let w := tick 1 w in
      let article :=
        Article.set_status "analyzing"
          (Article.set_html_content (AnalysisRequest.html_content request) article) in
      let w := with_articles (update_article article (articles w)) w in
      let (w, outcome) :=
        analyze_with_claude w (AnalysisRequest.html_content request)
          (Article.to_url article) (Article.main_kw article)
          (AnalysisRequest.custom_prompt request)
          (count_or_3 (AnalysisRequest.opportunity_count request)) in
      match outcome with
      | inl e => analysis_failed w article e
      | inr result =>
          let article := Article.set_analysis_results (AnalysisResult.dict result) article in
          let article := Article.set_status "completed" article in
          let now := utcnow E (ticks w) in
          let w := tick 1 w in
          let article := Article.set_processing_time (total_seconds (now - start_time)) article in
          match project_first w (Article.project_id article) with
          | None => analysis_failed w article AttributeError
          | Some project =>
              let completed_count :=
                Z.of_nat (List.length (filter (completed_in (Article.project_id article))
                                         (articles w))) in
              let project := Project.set_completed_articles completed_count project in
              (with_projects (update_project project (projects w))
                 (with_articles (update_article article (articles w)) w),
               inr result)
          end
      end
  end.

(** [POST /projects/{project_id}/export] *)
Definition export_results (w : World) (project_id : ident)
  : World * result ExportResponse :=
  let articles := order_by_index (filter (completed_in project_id) (articles w)) in
  (w, export_data <- export_loop articles ;;
      inr {| results := export_data;
             total_opportunities := Z.of_nat (List.length export_data) |}).
End Routes.

(** ** A runtime to run examples with *)

(** A reader for the JSON texts the examples use: white space, [null],
    [true], [false], integers, strings with the two-character escapes,
    arrays and objects. On such a text it builds what [json.loads]
    builds. It refuses every other text, among them texts [json.loads]
    reads (fractions, exponents, [\u] escapes, [NaN]); it is an
    implementation of the interface for concrete runs, not a model of
    the whole of [json.loads]. *)
Module Reader.
Definition quote : ascii := "034"%char.

Definition is_space (c : ascii) : bool :=
  Ascii.eqb c " "%char || Ascii.eqb c "009"%char
  || Ascii.eqb c "010"%char || Ascii.eqb c "013"%char.

Definition digit (c : ascii) : option Z :=
  let n := nat_of_ascii c in
  if (48 <=? n)%nat && (n <=? 57)%nat then Some (Z.of_nat (n - 48)) else None.

Fixpoint skip (s : list ascii) : list ascii :=
  match s with
  | c :: s' => if is_space c then skip s' else s
  | [] => []
  end.

Definition unescape (c : ascii) : option ascii :=
  if Ascii.eqb c quote then Some quote
  else if Ascii.eqb c "\"%char then Some "\"%char
  else if Ascii.eqb c "/"%char then Some "/"%char
  else if Ascii.eqb c "b"%char then Some "008"%char
  else if Ascii.eqb c "f"%char then Some "012"%char
  else if Ascii.eqb c "n"%char then Some "010"%char
  else if Ascii.eqb c "r"%char then Some "013"%char
  else if Ascii.eqb c "t"%char then Some "009"%char
  else None.

(** The characters of a string, after its opening quote. *)
Fixpoint chars (s : list ascii) : option (string * list ascii) :=
  match s with
  | [] => None
  | c :: s' =>
      if Ascii.eqb c quote then Some (EmptyString, s')
      else if Ascii.eqb c "\"%char then
        match s' with
        | e :: s'' =>
            match unescape e, chars s'' with
            | Some c', Some (str, rest) => Some (String c' str, rest)
            | _, _ => None
            end
        | [] => None
        end
      else if (nat_of_ascii c <? 32)%nat then None
      else
        match chars s' with
        | Some (str, rest) => Some (String c str, rest)
        | None => None
        end
  end.

Fixpoint digits (acc : Z) (s : list ascii) : Z * list ascii :=
  match s with
  | c :: s' =>
      match digit c with
      | Some d => digits (10 * acc + d) s'
      | None => (acc, s)
      end
  | [] => (acc, [])
  end.

(** An integer without sign. *)
Definition natural (s : list ascii) : option (Z * list ascii) :=
  match s with
  | c :: s' =>
      match digit c with
      | Some 0 => Some (0, s')
      | Some d => Some (digits d s')
      | None => None
      end
  | [] => None
  end.

(** A fraction or an exponent after an integer is refused. *)
Definition no_fraction (s : list ascii) : bool :=
  match s with
  | c :: _ =>
      negb (Ascii.eqb c "."%char || Ascii.eqb c "e"%char || Ascii.eqb c "E"%char)
  | [] => true
  end.

Fixpoint starts (lit s : list ascii) : option (list ascii) :=
  match lit, s with
  | [], _ => Some s
  | a :: lit', b :: s' => if Ascii.eqb a b then starts lit' s' else None
  | _ :: _, [] => None
  end.

(** [d[k] = v] *)
Fixpoint dict_set (d : list (string * json)) (k : string) (v : json)
  : list (string * json) :=
  match d with
  | [] => [(k, v)]
  | (k', v') :: d' =>
      if String.eqb k' k then (k, v) :: d' else (k', v') :: dict_set d' k v
  end.

Definition literal (s : list ascii) : option (json * list ascii) :=
  match starts (list_ascii_of_string "true") s with
  | Some rest => Some (JBool true, rest)
  | None =>
      match starts (list_ascii_of_string "false") s with
      | Some rest => Some (JBool false, rest)
      | None =>
          match starts (list_ascii_of_string "null") s with
          | Some rest => Some (JNull, rest)
          | None => None
          end
      end
  end.

Definition integer (sign : Z) (s : list ascii) : option (json * list ascii) :=
  match natural s with
  | Some (n, rest) => if no_fraction rest then Some (JInt (sign * n), rest) else None
  | None => None
  end.

Fixpoint value (fuel : nat) (s : list ascii) : option (json * list ascii) :=
  match fuel with
  | O => None
  | S fuel =>
      match skip s with
      | [] => None
      | c :: s1 =>
          if Ascii.eqb c "{"%char then
            match skip s1 with
            | c' :: s2 =>
                if Ascii.eqb c' "}"%char then Some (JDict [], s2)
                else members fuel [] (c' :: s2)
            | [] => None
            end
          else if Ascii.eqb c "["%char then
            match skip s1 with
            | c' :: s2 =>
                if Ascii.eqb c' "]"%char then Some (JList [], s2)
                else elements fuel [] (c' :: s2)
            | [] => None
            end
          else if Ascii.eqb c quote then
            match chars s1 with
            | Some (str, rest) => Some (JStr str, rest)
            | None => None
            end
          else if Ascii.eqb c "-"%char then integer (-1) s1
          else
            match integer 1 (c :: s1) with
            | Some r => Some r
            | None => literal (c :: s1)
            end
      end
  end
with elements (fuel : nat) (acc : list json) (s : list ascii)
  : option (json * list ascii) :=
  match fuel with
  | O => None
  | S fuel =>
      match value fuel s with
      | Some (v, rest) =>
          match skip rest with
          | c :: s1 =>
              if Ascii.eqb c ","%char then elements fuel (v :: acc) s1
              else if Ascii.eqb c "]"%char then Some (JList (rev (v :: acc)), s1)
              else None
          | [] => None
          end
      | None => None
      end
  end
with members (fuel : nat) (acc : list (string * json)) (s : list ascii)
  : option (json * list ascii) :=
  match fuel with
  | O => None
  | S fuel =>
      match skip s with
      | c :: s1 =>
          if Ascii.eqb c quote then
            match chars s1 with
            | Some (key, s2) =>
                match skip s2 with
                | c' :: s3 =>
                    if Ascii.eqb c' ":"%char then
                      match value fuel s3 with
                      | Some (v, s4) =>
                          match skip s4 with
                          | c'' :: s5 =>
                              if Ascii.eqb c'' ","%char
                              then members fuel (dict_set acc key v) s5
                              else if Ascii.eqb c'' "}"%char
                              then Some (JDict (dict_set acc key v), s5)
                              else None
                          | [] => None
                          end
                      | None => None
                      end
                    else None
                | [] => None
                end
            | None => None
            end
          else None
      | [] => None
      end
  end.

(** The whole text must be one value; the fuel is more than the
    reader can use on a text of this length. *)
Definition read (text : string) : option json :=
  let s := list_ascii_of_string text in
  match value (2 * List.length s + 2) s with
  | Some (j, rest) =>
      match skip rest with
      | [] => Some j
      | _ :: _ => None
      end
  | None => None
  end.
End Reader.

(** Validators that accept a value of the declared type and refuse every
    other. *)
Definition strict_int (j : json) : option Z :=
  match j with
  | JInt n => Some n
  | _ => None
  end.

Definition strict_str (j : json) : option string :=
  match j with
  | JStr s => Some s
  | _ => None
  end.

Definition example_runtime : PyRuntime := {|
  json_loads := Reader.read;
  validate_int := strict_int;
  validate_str := strict_str;
  validate_int_JInt := fun n => eq_refl;
  validate_str_JStr := fun s => eq_refl
|}.

(** ** Notions the statements use *)

(** [s] occurs in [t] as a literal substring. *)
Definition is_substring (s t : string) : Prop :=
  exists before after, t = before ++ s ++ after.

(** A response with nothing to decode: its body is not JSON, or its
    body is JSON, carries a text block, and that text is not JSON. *)
Inductive not_valid_json {RT : PyRuntime} (response : Response) : Prop :=
| body_not_json :
    json_loads (body response) = None ->
    not_valid_json response
| text_not_json (claude_response : json) (text : string) :
    json_loads (body response) = Some claude_response ->
    response_text claude_response = inr (JStr text) ->
    json_loads text = None ->
    not_valid_json response.

(** The JSON object [j] has the shape of the opportunity [o]: a dict
    that gives each of the eight fields with a value of its declared
    type. *)
Definition opportunity_shape (j : json) (o : LinkOpportunity.t) : Prop :=
  exists kw,
    j = JDict kw
    /\ dict_get kw "id" = Some (JInt (LinkOpportunity.id o))
    /\ dict_get kw "rating" = Some (JInt (LinkOpportunity.rating o))
    /\ dict_get kw "location" = Some (JStr (LinkOpportunity.location o))
    /\ dict_get kw "context" = Some (JStr (LinkOpportunity.context o))
    /\ dict_get kw "old_text" = Some (JStr (LinkOpportunity.old_text o))
    /\ dict_get kw "new_text" = Some (JStr (LinkOpportunity.new_text o))
    /\ dict_get kw "reasoning" = Some (JStr (LinkOpportunity.reasoning o))
    /\ dict_get kw "user_value" = Some (JStr (LinkOpportunity.user_value o)).

(** The JSON object [j] has the shape of the result [r], whatever its
    [processing_time]. *)
Definition analysis_shape (j : json) (r : AnalysisResult.t) : Prop :=
  exists d items,
    j = JDict d
    /\ dict_get d "opportunities" = Some (JList items)
    /\ Forall2 opportunity_shape items (AnalysisResult.opportunities r)
    /\ dict_get d "article_type" = Some (JStr (AnalysisResult.article_type r))
    /\ dict_get d "reader_intent" = Some (JStr (AnalysisResult.reader_intent r))
    /\ dict_get d "best_strategy" = Some (JStr (AnalysisResult.best_strategy r)).

(** The response decodes to the result [r]: its body is JSON, the text
    of its first content block is JSON, and that JSON has the shape of
    [r]. *)
Definition decodes_to {RT : PyRuntime} (response : Response) (r : AnalysisResult.t)
  : Prop :=
  exists claude_response text analysis_data,
    json_loads (body response) = Some claude_response
    /\ response_text claude_response = inr (JStr text)
    /\ json_loads text = Some analysis_data
    /\ analysis_shape analysis_data r.

(** The request [analyze_with_claude] posts. *)
Definition claude_request (html_content to_url main_kw : string)
           (custom_prompt : option string) (opportunity_count : Z) : HttpRequest :=
  messages_request (base_prompt html_content to_url main_kw custom_prompt opportunity_count).

(** The prompt [analyze_article] sends for [article] and [request]. *)
Definition article_request (article : Article.t) (request : AnalysisRequest.t)
  : HttpRequest :=
  messages_request
    (base_prompt (AnalysisRequest.html_content request) (Article.to_url article)
       (Article.main_kw article) (AnalysisRequest.custom_prompt request)
       (count_or_3 (AnalysisRequest.opportunity_count request))).

(** The export row of opportunity [o] of [article]. *)
Definition row_of (article : Article.t) (o : LinkOpportunity.t) : ExportRow :=
  {| row_from_url := Article.from_url article;
     row_to_url := Article.to_url article;
     row_main_kw := Article.main_kw article;
     row_rating := JInt (LinkOpportunity.rating o);
     row_location := JStr (LinkOpportunity.location o);
     row_old_text := JStr (LinkOpportunity.old_text o);
     row_new_text := JStr (LinkOpportunity.new_text o);
     row_reasoning := JStr (LinkOpportunity.reasoning o) |}.

Definition rows_of (ar : Article.t * AnalysisResult.t) : list ExportRow :=
  map (row_of (fst ar)) (AnalysisResult.opportunities (snd ar)).

(** The number of [project_id]'s articles in status [completed]. *)
Definition count_completed (w : World) (project_id : ident) : Z :=
  Z.of_nat (List.length (filter (completed_in project_id) (articles w))).

(** ** Histories *)

(** The requests that change the store. *)
Inductive Call : Type :=
| CreateProject (name : string)
| UploadExcel (project_id : ident) (file : option DataFrame)
| AnalyzeArticle (article_id : ident) (request : AnalysisRequest.t).

Section Histories.
Context {RT : PyRuntime} (E : Env).

Definition serve (w : World) (c : Call) : World :=
  match c with
  | CreateProject name => fst (create_project E w name)
  | UploadExcel project_id file => fst (upload_excel E w project_id file)
  | AnalyzeArticle article_id request => fst (analyze_article E w article_id request)
  end.

(** The worlds a server started on an empty database can be in,
    between two requests. *)
Inductive reachable : World -> Prop :=
| reach_empty : reachable empty_world
| reach_serve w c : reachable w -> reachable (serve w c).

Definition history (cs : list Call) : World := fold_left serve cs empty_world.
End Histories.

(** ** Sample data *)

Module Sample.
Definition q : string := String Reader.quote EmptyString.

(** The characters of [s] as they stand inside a JSON string literal. *)
Fixpoint escaped (s : string) : string :=
  match s with
  | EmptyString => EmptyString
  | String c s' =>
      if Ascii.eqb c Reader.quote || Ascii.eqb c "\"%char
      then String "\"%char (String c (escaped s'))
      else String c (escaped s')
  end.

Definition literal (s : string) : string := q ++ escaped s ++ q.

Definition member (key value : string) : string := literal key ++ ":" ++ value.

(** The body of a reply of the messages endpoint whose first content
    block carries [text]. *)
Definition message (text : string) : string :=
  "{" ++ member "content" ("[{" ++ member "text" (literal text) ++ "}]") ++ "}".

Definition ok (text : string) : option Response :=
  Some {| status_code := 200; body := message text |}.

Definition unavailable : option Response :=
  Some {| status_code := 500; body := "Internal Server Error" |}.

(** One opportunity, rated outside 1..10, and the analysis holding it. *)
Definition opportunity : LinkOpportunity.t :=
  LinkOpportunity.make 7 42 "Intro" "Opening paragraph" "Old sentence."
    "<p>New sentence.</p>" "Fits the topic" "More detail".

Definition opportunity_text : string :=
  "{" ++ member "id" "7" ++ "," ++ member "rating" "42" ++ ","
      ++ member "location" (literal "Intro") ++ ","
      ++ member "context" (literal "Opening paragraph") ++ ","
      ++ member "old_text" (literal "Old sentence.") ++ ","
      ++ member "new_text" (literal "<p>New sentence.</p>") ++ ","
      ++ member "reasoning" (literal "Fits the topic") ++ ","
      ++ member "user_value" (literal "More detail") ++ "}".

Definition analysis : AnalysisResult.t :=
  AnalysisResult.make [opportunity] (5 # 2) "Guide" "Research" "Inline link".

Definition analysis_text : string :=
  "{" ++ member "opportunities" ("[" ++ opportunity_text ++ "]") ++ ", "
      ++ member "article_type" (literal "Guide") ++ ", "
      ++ member "reader_intent" (literal "Research") ++ ", "
      ++ member "best_strategy" (literal "Inline link") ++ "}".

(** JSON that is an object but has none of the expected fields. *)
Definition shapeless_text : string := "{}".

Definition shapeless_response : Response :=
  {| status_code := 200; body := message shapeless_text |}.

(** Prose where JSON was asked for. *)
Definition prose_response : Response :=
  {| status_code := 200; body := message "Here are the opportunities I found:" |}.

Definition analysis_response : Response :=
  {| status_code := 200; body := message analysis_text |}.

(** A clock that advances 0.7 s between two readings, and an endpoint
    that gives [replies] in turn and then fails to connect. *)
Definition env (replies : list (option Response)) : Env :=
  {| utcnow := fun n => 700000 * Z.of_nat n;
     post := fun n _ => nth n replies None |}.

Definition row (f t k : Cell) (col : string) : Cell :=
  if String.eqb col "From" then f
  else if String.eqb col "To" then t
  else if String.eqb col "Main KW" then k
  else OtherCell "nan".

Definition sheet : DataFrame :=
  {| columns := ["From"; "To"; "Main KW"; "Notes"];
     rows := [ row (TextCell "https://example.com/a") (TextCell "https://example.com/t")
                   (TextCell "243 ballistics");
               row (TextCell "https://example.com/b") (TextCell "https://example.com/u")
                   (OtherCell "308") ] |}.

(** A sheet without the [To] column. *)
Definition short_sheet : DataFrame :=
  {| columns := ["From"; "Main KW"];
     rows := [ row (TextCell "https://example.com/a") (OtherCell "nan")
                   (TextCell "243 ballistics") ] |}.

Definition request : AnalysisRequest.t :=
  AnalysisRequest.make 1%nat "<p>Some html</p>" None (Some 3).

(** A project (key 0) with the two articles of [sheet] (keys 1, 2). *)
Definition ingest : list Call :=
  [CreateProject "demo"; UploadExcel 0%nat (Some sheet)].

(** The endpoint answers the first call with [analysis_response] and
    the second with status 500. *)
Definition flaky : Env := env [Some analysis_response; unavailable].

(** Article 1 is analysed once. *)
Definition analysed_once : list Call :=
  (ingest ++ [AnalyzeArticle 1%nat request])%list.

(** Article 1 is analysed, then analysed again. *)
Definition analysed_twice : list Call :=
  (ingest ++ [AnalyzeArticle 1%nat request; AnalyzeArticle 1%nat request])%list.

(** Articles 1 and 2 are analysed, each once. *)
Definition analysed_both : list Call :=
  (ingest ++ [AnalyzeArticle 1%nat request; AnalyzeArticle 2%nat request])%list.
End Sample.

(** What holds of every stored article between two requests: a pending
    article has no results, a completed one has some, and results are
    always the dict of an [AnalysisResult]. *)
Definition well_stored (a : Article.t) : Prop :=
  (Article.status a = "pending" -> Article.analysis_results a = None)
  /\ (Article.status a = "completed" -> Article.analysis_results a <> None)
  /\ (forall j, Article.analysis_results a = Some j -> exists r, j = AnalysisResult.dict r).

Definition by_index (a b : Article.t) : Prop :=
  Article.order_index a <= Article.order_index b.

(** Primary keys are below the counter and occur once. *)
Definition keys_fresh (w : World) : Prop :=
  NoDup (map Article.id (articles w))
  /\ Forall (fun k => (k < uuids w)%nat) (map Article.id (articles w)).

(** Splits the first [bind] of a hypothesis on what its computation
    gave. *)
Ltac split_bind H :=
  match type of H with
  | context [bind ?c _] =>
      let E := fresh "E" in
      destruct c eqn:E; cbn [bind] in H
  end.

(** ** The routes that only read *)

(** [bool(a.html_content)]: [None] and the empty string are falsy. *)
Definition truthy_text (s : option string) : bool :=
  match s with
  | Some (String _ _) => true
  | _ => false
  end.

(** [bool(a.analysis_results)] *)
Definition truthy_results (j : option json) : bool :=
  match j with
  | Some _ => true
  | None => false
  end.

(** The filter [Article.project_id == project_id]. *)
Definition in_project (project_id : ident) (a : Article.t) : bool :=
  Nat.eqb (Article.project_id a) project_id.

(** One entry of the list [get_project_articles] returns. *)
Record ArticleSummary : Type := {
  summary_id : ident;
  summary_from_url : string;
  summary_to_url : string;
  summary_main_kw : string;
  summary_status : string;
  summary_order_index : Z;
  has_html : bool;
  has_analysis : bool
}.

Definition summary (a : Article.t) : ArticleSummary :=
  {| summary_id := Article.id a;
     summary_from_url := Article.from_url a;
     summary_to_url := Article.to_url a;
     summary_main_kw := Article.main_kw a;
     summary_status := Article.status a;
     summary_order_index := Article.order_index a;
     has_html := truthy_text (Article.html_content a);
     has_analysis := truthy_results (Article.analysis_results a) |}.

(** [GET /projects/{project_id}/articles] *)
Definition get_project_articles (w : World) (project_id : ident) : list ArticleSummary :=
  map summary (order_by_index (filter (in_project project_id) (articles w))).

(** The dict [get_article] returns; [detail_analysis] is the key
    [analysis], present only when [analysis_results] is truthy. *)
Record ArticleDetail : Type := {
  detail_id : ident;
  detail_from_url : string;
  detail_to_url : string;
  detail_main_kw : string;
  detail_status : string;
  detail_order_index : Z;
  detail_processing_time : option Q;
  detail_analysis : option json
}.

(** [GET /articles/{article_id}] *)
Definition get_article (w : World) (article_id : ident) : result ArticleDetail :=
  match article_first w article_id with
  | None => inl (HTTPException 404 "Article not found" None)
  | Some article =>
      inr {| detail_id := Article.id article;
             detail_from_url := Article.from_url article;
             detail_to_url := Article.to_url article;
             detail_main_kw := Article.main_kw article;
             detail_status := Article.status article;
             detail_order_index := Article.order_index article;
             detail_processing_time := Article.processing_time article;
             detail_analysis := Article.analysis_results article |}
  end.

(** [order_by(Project.created_at.desc())]: latest first; rows with the
    same time stay in table order. *)
Fixpoint insert_by_created (p : Project.t) (l : list Project.t) : list Project.t :=
  match l with
  | [] => [p]
  | b :: l' =>
      if Project.created_at b <=? Project.created_at p
      then p :: l
      else b :: insert_by_created p l'
  end.

(** [GET /projects] *)
Definition get_projects (w : World) : list Project.t :=
  fold_right insert_by_created [] (projects w).

Definition latest_first (a b : Project.t) : Prop :=
  Project.created_at b <= Project.created_at a.

(** ** More notions the statements use *)

(** The three cells of a row that [upload_excel] reads. *)
Definition required_cells (row : string -> Cell) : Cell * Cell * Cell :=
  (row "From", row "To", row "Main KW").

(** The statuses an article is stored with between two requests, and
    what it holds in each. *)
Definition settled (a : Article.t) : Prop :=
  (Article.status a = "pending"
   /\ Article.html_content a = None /\ Article.processing_time a = None)
  \/ (Article.status a = "completed"
      /\ Article.html_content a <> None /\ Article.processing_time a <> None)
  \/ (Article.status a = "error" /\ Article.html_content a <> None).

(** Every article belongs to a stored project, and the keys of
    projects are below the counter. *)
Definition projects_known (w : World) : Prop :=
  Forall (fun a => exists p, project_first w (Article.project_id a) = Some p) (articles w)
  /\ Forall (fun p => (Project.id p < uuids w)%nat) (projects w).

(** Each project's counter is between 0 and the number of its
    articles. *)
Definition counters_bounded (w : World) : Prop :=
  Forall (fun p => 0 <= Project.completed_articles p
                   <= Z.of_nat (List.length (filter (in_project (Project.id p))
                                                    (articles w))))
         (projects w).

(** An analysis that gives opportunities and no metadata. *)
Definition bare_analysis_text : string :=
  "{" ++ Sample.member "opportunities" ("[" ++ Sample.opportunity_text ++ "]") ++ "}".

Definition bare_response : Response :=
  {| status_code := 200; body := Sample.message bare_analysis_text |}.

(** Two opportunities, the second without most of its fields. *)
Definition partial_analysis_text : string :=
  "{" ++ Sample.member "opportunities"
           ("[" ++ Sample.opportunity_text ++ ",{" ++ Sample.member "id" "8" ++ "}]")
      ++ "}".

Definition partial_response : Response :=
  {| status_code := 200; body := Sample.message partial_analysis_text |}.

(** A sheet of one row whose [Main KW] cell is empty. *)
Definition gap_sheet : DataFrame :=
  {| columns := ["From"; "To"; "Main KW"];
     rows := [ Sample.row (TextCell "https://example.com/a")
                          (TextCell "https://example.com/t") EmptyCell ] |}.

(** A sheet with the cells of [Sample.sheet] and other columns. *)
Definition wide_sheet : DataFrame :=
  {| columns := ["Owner"; "Main KW"; "To"; "From"];
     rows := map (fun row col => if String.eqb col "Owner" then TextCell "me" else row col)
                 (rows Sample.sheet) |}.

(** * Facts about the analyzer client *)

Lemma append_assoc (a b c : string) : ((a ++ b) ++ c)%string = (a ++ b ++ c)%string.
Proof.
  induction a as [|x a IH]; cbn; [reflexivity | now rewrite IH].
Qed.

Lemma required_error {RT : PyRuntime} {A : Type} (validate : json -> option A) kw field e :
  required validate kw field = inl e -> e = ValidationError.
Proof.
  unfold required.
  destruct (dict_get kw field) as [v|]; [destruct (validate v)|]; congruence.
Qed.

Lemma LinkOpportunity_kwargs_error {RT : PyRuntime} (opp : json) (e : exn) :
  LinkOpportunity_kwargs opp = inl e -> e = ValidationError \/ e = TypeError.
Proof.
  unfold LinkOpportunity_kwargs.
  destruct opp; try (intros [= <-]; now right).
  intros H. left.
  repeat (split_bind H;
          [ match goal with
            | [ R : required _ _ _ = inl _ |- _ ] =>
                apply required_error in R; congruence
            end | ]).
  discriminate.
Qed.

Lemma comprehension_error {A B : Type} (f : A -> result B) (xs : list A) (e : exn) :
  comprehension f xs = inl e -> exists x, In x xs /\ f x = inl e.
Proof.
  induction xs as [|x xs IH]; cbn; [discriminate|].
  destruct (f x) as [e'|y] eqn:Fx; cbn.
  - intros [= <-]. exists x. auto.
  - destruct (comprehension f xs) as [e'|ys]; cbn; [|discriminate].
    intros [= <-]. destruct (IH eq_refl) as [x' [Hin Hx']].
    exists x'. auto.
Qed.

Lemma get_str_error {RT : PyRuntime} d key default e :
  get_str d key default = inl e -> e = ValidationError.
Proof.
  unfold get_str. destruct (validate_str _); congruence.
Qed.

Lemma getitem_key_error (j : json) (k : string) (e : exn) :
  getitem_key j k = inl e -> e = KeyError k \/ e = TypeError.
Proof.
  unfold getitem_key.
  destruct j; try (intros [= <-]; now right).
  destruct (dict_get items k); [discriminate|]. intros [= <-]. now left.
Qed.

Lemma getitem_0_error (j : json) (e : exn) :
  getitem_0 j = inl e -> is_JSONDecodeError e = false.
Proof.
  unfold getitem_0.
  destruct j as [| | | |s|l|d]; try (intros [= <-]; reflexivity).
  - destruct s; [|discriminate]. intros [= <-]. reflexivity.
  - destruct l; [|discriminate]. intros [= <-]. reflexivity.
Qed.

Lemma py_iter_error (j : json) (e : exn) : py_iter j = inl e -> e = TypeError.
Proof.
  destruct j; cbn; congruence.
Qed.

(** Once the texts are decoded, nothing raises [JSONDecodeError]. *)
Lemma parsed_result_error {RT : PyRuntime} (analysis_data : json) (e : exn) :
  parsed_result analysis_data = inl e -> is_JSONDecodeError e = false.
Proof.
  unfold parsed_result. intros H.
  split_bind H.
  { injection H as <-. apply getitem_key_error in E. destruct E; subst; reflexivity. }
  split_bind H.
  { injection H as <-. apply py_iter_error in E0. now subst. }
  split_bind H.
  { injection H as <-. apply comprehension_error in E1.
    destruct E1 as [x [_ Hx]]. apply LinkOpportunity_kwargs_error in Hx.
    destruct Hx; subst; reflexivity. }
  destruct analysis_data; try (injection H as <-; reflexivity).
  repeat (split_bind H;
          [ match goal with
            | [ R : get_str _ _ _ = inl _ |- _ ] =>
                apply get_str_error in R; injection H as <-; subst; reflexivity
            end | ]).
  discriminate.
Qed.

Lemma response_text_error (claude_response : json) (e : exn) :
  response_text claude_response = inl e -> is_JSONDecodeError e = false.
Proof.
  unfold response_text. intros H.
  split_bind H.
  { injection H as <-. apply getitem_key_error in E. destruct E; subst; reflexivity. }
  split_bind H.
  { injection H as <-. now apply getitem_0_error in E0. }
  apply getitem_key_error in H. destruct H; subst; reflexivity.
Qed.

(** With status 200, the [try] raises [JSONDecodeError] exactly on a
    response with nothing to decode. *)
Lemma try_body_decode_error {RT : PyRuntime} (response : Response) :
  status_code response = 200 ->
  (try_body (Some response) = inl JSONDecodeError <-> not_valid_json response).
Proof.
  intros Hs. unfold try_body, response_json, loads. rewrite Hs. cbn [Z.eqb Pos.eqb].
  split.
  - destruct (json_loads (body response)) as [j|] eqn:Hb; cbn [bind].
    + destruct (response_text j) as [e|text] eqn:Ht; cbn [bind].
      * intros [= ->]. now apply response_text_error in Ht.
      * destruct text;
          try (cbn [bind]; discriminate).
        destruct (json_loads s) as [data|] eqn:Hd; cbn [bind].
        -- intros H. now apply parsed_result_error in H.
        -- intros _. now apply (text_not_json response j s).
    + intros _. now apply body_not_json.
  - intros [Hb | j text Hb Ht Hd]; rewrite Hb; cbn [bind]; [reflexivity|].
    rewrite Ht. cbn [bind]. now rewrite Hd.
Qed.

Lemma try_body_status {RT : PyRuntime} (response : Response) :
  status_code response <> 200 ->
  try_body (Some response) = inl (HTTPException 500 "Claude API error" None).
Proof.
  intros Hs. unfold try_body.
  destruct (status_code response =? 200) eqn:Heq; [|reflexivity].
  apply Z.eqb_eq in Heq. contradiction.
Qed.

Lemma parsed_result_processing_time {RT : PyRuntime} (analysis_data : json) r :
  parsed_result analysis_data = inr r -> AnalysisResult.processing_time r = 5 # 2.
Proof.
  unfold parsed_result. intros H.
  do 3 (split_bind H; [discriminate|]).
  destruct analysis_data; try discriminate.
  do 3 (split_bind H; [discriminate|]).
  now injection H as <-.
Qed.

Lemma try_body_processing_time {RT : PyRuntime} (reply : option Response) r :
  try_body reply = inr r -> AnalysisResult.processing_time r = 5 # 2.
Proof.
  unfold try_body. destruct reply as [response|]; [|discriminate].
  destruct (status_code response =? 200); [|discriminate].
  intros H. do 3 (split_bind H; [discriminate|]).
  now apply parsed_result_processing_time in H.
Qed.

Lemma is_JSONDecodeError_true (e : exn) : is_JSONDecodeError e = true -> e = JSONDecodeError.
Proof.
  destruct e; cbn; congruence.
Qed.

Lemma fallback_on_decode_error {RT : PyRuntime} (response : Response) (to_url main_kw : string) :
  status_code response = 200 ->
  not_valid_json response ->
  analyze_with_claude_reply (Some response) to_url main_kw = inr (fallback to_url main_kw).
Proof.
  intros Hs Hn. unfold analyze_with_claude_reply.
  apply (try_body_decode_error response Hs) in Hn. now rewrite Hn.
Qed.

Lemma no_fallback_otherwise {RT : PyRuntime} (response : Response) (to_url main_kw : string) :
  status_code response = 200 ->
  ~ not_valid_json response ->
  analyze_with_claude_reply (Some response) to_url main_kw = try_body (Some response)
  /\ analyze_with_claude_reply (Some response) to_url main_kw <> inr (fallback to_url main_kw).
Proof.
  intros Hs Hn. unfold analyze_with_claude_reply.
  destruct (try_body (Some response)) as [e|r] eqn:Ht.
  - destruct (is_JSONDecodeError e) eqn:He.
    + apply is_JSONDecodeError_true in He. subst e.
      apply (try_body_decode_error response Hs) in Ht. contradiction.
    + split; [reflexivity | discriminate].
  - split; [reflexivity|].
    apply try_body_processing_time in Ht. intros [= ->]. discriminate.
Qed.

Lemma shape_gives_opportunity {RT : PyRuntime} (j : json) (o : LinkOpportunity.t) :
  opportunity_shape j o -> LinkOpportunity_kwargs j = inr o.
Proof.
  intros [kw [-> [H1 [H2 [H3 [H4 [H5 [H6 [H7 H8]]]]]]]]].
  unfold LinkOpportunity_kwargs, required.
  rewrite H1, H2, H3, H4, H5, H6, H7, H8.
  rewrite !validate_int_JInt, !validate_str_JStr. cbn [bind].
  now destruct o.
Qed.

Lemma shapes_give_opportunities {RT : PyRuntime} (items : list json)
      (opps : list LinkOpportunity.t) :
  Forall2 opportunity_shape items opps ->
  comprehension LinkOpportunity_kwargs items = inr opps.
Proof.
  induction 1 as [|j o items opps Hj _ IH]; cbn; [reflexivity|].
  rewrite (shape_gives_opportunity j o Hj), IH. reflexivity.
Qed.

Lemma shape_gives_result {RT : PyRuntime} (analysis_data : json) (r : AnalysisResult.t) :
  analysis_shape analysis_data r ->
  parsed_result analysis_data
  = inr (AnalysisResult.make (AnalysisResult.opportunities r) (5 # 2)
           (AnalysisResult.article_type r) (AnalysisResult.reader_intent r)
           (AnalysisResult.best_strategy r)).
Proof.
  intros [d [items [-> [Ho [Hf [Ha [Hr Hb]]]]]]].
  unfold parsed_result, getitem_key, get_str. rewrite Ho. cbn [bind py_iter].
  rewrite (shapes_give_opportunities _ _ Hf). cbn [bind].
  rewrite Ha, Hr, Hb, !validate_str_JStr. reflexivity.
Qed.

(** C1: when the endpoint answers 200 and what it sent is not valid
    JSON (the body itself, or the text block the body carries), the
    analyzer client returns a result with exactly one opportunity, of
    rating 9, with processing time 2.3, whose [new_text] contains the
    given [to_url] and the given [main_kw] as literal substrings. *)
Theorem invalid_json_gives_fallback {RT : PyRuntime} (E : Env) (w : World)
        (html_content to_url main_kw : string) (custom_prompt : option string)
        (opportunity_count : Z) (response : Response) :
  post E (calls w)
       (claude_request html_content to_url main_kw custom_prompt opportunity_count)
  = Some response ->
  status_code response = 200 ->
  not_valid_json response ->
  exists r opp,
    snd (analyze_with_claude E w html_content to_url main_kw custom_prompt
                             opportunity_count) = inr r
    /\ AnalysisResult.opportunities r = [opp]
    /\ LinkOpportunity.rating opp = 9
    /\ AnalysisResult.processing_time r = 23 # 10
    /\ is_substring to_url (LinkOpportunity.new_text opp)
    /\ is_substring main_kw (LinkOpportunity.new_text opp).
Proof.
  intros Hp Hs Hn.
  unfold analyze_with_claude. cbn [snd]. unfold claude_request in Hp. rewrite Hp.
  rewrite (fallback_on_decode_error response to_url main_kw Hs Hn).
  eexists. eexists. split; [reflexivity|].
  split; [reflexivity|]. split; [reflexivity|]. split; [reflexivity|].
  cbn [LinkOpportunity.new_text]. split.
  - eexists. eexists. reflexivity.
  - eexists. exists "</a> analysis."%string.
    rewrite <- !append_assoc. reflexivity.
Qed.

Lemma invalid_json_gives_fallback_witness :
  exists r opp,
    snd (@analyze_with_claude example_runtime (Sample.env [Some Sample.prose_response])
           empty_world "<p>Some html</p>" "https://example.com/t" "243 ballistics"
           None 3) = inr r
    /\ AnalysisResult.opportunities r = [opp]
    /\ LinkOpportunity.rating opp = 9
    /\ AnalysisResult.processing_time r = 23 # 10
    /\ is_substring "https://example.com/t" (LinkOpportunity.new_text opp)
    /\ is_substring "243 ballistics" (LinkOpportunity.new_text opp).
Proof.
  apply (@invalid_json_gives_fallback example_runtime
           (Sample.env [Some Sample.prose_response]) empty_world
           "<p>Some html</p>" "https://example.com/t" "243 ballistics" None 3
           Sample.prose_response).
  - reflexivity.
  - reflexivity.
  - eapply (@text_not_json example_runtime); vm_compute; reflexivity.
Defined.

(** C2, as the specification states it, fails: the endpoint answers 200
    with a text block that is valid JSON, the object [{}], which has
    none of the expected fields; the response has not the expected
    shape, and the client raises [KeyError] to its caller where the
    claim promises the fallback. *)
Lemma shapeless_json_raises :
  status_code Sample.shapeless_response = 200
  /\ @json_loads example_runtime Sample.shapeless_text = Some (JDict [])
  /\ ~ (exists r, @decodes_to example_runtime Sample.shapeless_response r)
  /\ snd (@analyze_with_claude example_runtime
            (Sample.env [Some Sample.shapeless_response]) empty_world
            "<p>Some html</p>" "https://example.com/t" "243 ballistics" None 3)
     = inl (KeyError "opportunities")
  /\ snd (@analyze_with_claude example_runtime
            (Sample.env [Some Sample.shapeless_response]) empty_world
            "<p>Some html</p>" "https://example.com/t" "243 ballistics" None 3)
     <> inr (@fallback "https://example.com/t" "243 ballistics").
Proof.
  split; [reflexivity|]. split; [reflexivity|]. split.
  - intros [r [cr [text [data [Hb [Ht [Hd Hshape]]]]]]].
    vm_compute in Hb. injection Hb as <-.
    vm_compute in Ht. injection Ht as <-.
    vm_compute in Hd. injection Hd as <-.
    destruct Hshape as [d [items [Hj [Ho _]]]].
    injection Hj as <-. discriminate.
  - split; [reflexivity|]. vm_compute. discriminate.
Qed.

(** C2, amended: when the endpoint answers 200, the client returns the
    one-element fallback built from the target URL and keyword, and
    raises nothing, if the body or the text block it carries is not
    valid JSON; on every other response it gives what the [try] gives,
    a parsed result or the exception of the parse, and not the
    fallback. *)
Theorem fallback_exactly_on_decode_error {RT : PyRuntime} (E : Env) (w : World)
        (html_content to_url main_kw : string) (custom_prompt : option string)
        (opportunity_count : Z) (response : Response) :
  post E (calls w)
       (claude_request html_content to_url main_kw custom_prompt opportunity_count)
  = Some response ->
  status_code response = 200 ->
  (not_valid_json response ->
   snd (analyze_with_claude E w html_content to_url main_kw custom_prompt
                            opportunity_count)
   = inr (fallback to_url main_kw))
  /\ (~ not_valid_json response ->
      snd (analyze_with_claude E w html_content to_url main_kw custom_prompt
                               opportunity_count)
      = try_body (Some response)
      /\ snd (analyze_with_claude E w html_content to_url main_kw custom_prompt
                                  opportunity_count)
         <> inr (fallback to_url main_kw)).
Proof.
  intros Hp Hs.
  unfold analyze_with_claude. cbn [snd]. unfold claude_request in Hp. rewrite Hp.
  split; intros Hn.
  - now apply fallback_on_decode_error.
  - now apply no_fallback_otherwise.
Qed.

Lemma fallback_exactly_on_decode_error_witness :
  (@not_valid_json example_runtime Sample.prose_response ->
   snd (@analyze_with_claude example_runtime (Sample.env [Some Sample.prose_response])
          empty_world "<p>Some html</p>" "https://example.com/t" "243 ballistics"
          None 3)
   = inr (@fallback "https://example.com/t" "243 ballistics"))
  /\ (~ @not_valid_json example_runtime Sample.prose_response ->
      snd (@analyze_with_claude example_runtime (Sample.env [Some Sample.prose_response])
             empty_world "<p>Some html</p>" "https://example.com/t" "243 ballistics"
             None 3)
      = @try_body example_runtime (Some Sample.prose_response)
      /\ snd (@analyze_with_claude example_runtime
                (Sample.env [Some Sample.prose_response])
                empty_world "<p>Some html</p>" "https://example.com/t" "243 ballistics"
                None 3)
         <> inr (@fallback "https://example.com/t" "243 ballistics")).
Proof.
  apply (@fallback_exactly_on_decode_error example_runtime
           (Sample.env [Some Sample.prose_response]) empty_world
           "<p>Some html</p>" "https://example.com/t" "243 ballistics" None 3
           Sample.prose_response).
  - reflexivity.
  - reflexivity.
Defined.

(** C9: when the endpoint answers 200 with JSON of the expected shape
    carrying k opportunities, the client returns a result with exactly
    those k opportunities, in the same order, each with its id, its
    rating and its texts as received; no rating is checked against
    1..10. *)
Theorem conforming_response_kept_verbatim {RT : PyRuntime} (E : Env) (w : World)
        (html_content to_url main_kw : string) (custom_prompt : option string)
        (opportunity_count : Z) (response : Response) (r : AnalysisResult.t) :
  post E (calls w)
       (claude_request html_content to_url main_kw custom_prompt opportunity_count)
  = Some response ->
  status_code response = 200 ->
  decodes_to response r ->
  exists result,
    snd (analyze_with_claude E w html_content to_url main_kw custom_prompt
                             opportunity_count) = inr result
    /\ AnalysisResult.opportunities result = AnalysisResult.opportunities r
    /\ List.length (AnalysisResult.opportunities result)
       = List.length (AnalysisResult.opportunities r)
    /\ map LinkOpportunity.id (AnalysisResult.opportunities result)
       = map LinkOpportunity.id (AnalysisResult.opportunities r)
    /\ map LinkOpportunity.rating (AnalysisResult.opportunities result)
       = map LinkOpportunity.rating (AnalysisResult.opportunities r)
    /\ AnalysisResult.article_type result = AnalysisResult.article_type r
    /\ AnalysisResult.reader_intent result = AnalysisResult.reader_intent r
    /\ AnalysisResult.best_strategy result = AnalysisResult.best_strategy r.
Proof.
  intros Hp Hs [cr [text [data [Hb [Ht [Hd Hshape]]]]]].
  unfold analyze_with_claude. cbn [snd]. unfold claude_request in Hp. rewrite Hp.
  unfold analyze_with_claude_reply, try_body, response_json, loads.
  rewrite Hs. cbn [Z.eqb Pos.eqb]. rewrite Hb. cbn [bind]. rewrite Ht. cbn [bind].
  rewrite Hd. cbn [bind]. rewrite (shape_gives_result data r Hshape).
  eexists. split; [reflexivity|]. cbn. repeat split; reflexivity.
Qed.

Lemma conforming_response_kept_verbatim_witness :
  exists result,
    snd (@analyze_with_claude example_runtime (Sample.env [Some Sample.analysis_response])
           empty_world "<p>Some html</p>" "https://example.com/t" "243 ballistics"
           None 3) = inr result
    /\ AnalysisResult.opportunities result = AnalysisResult.opportunities Sample.analysis
    /\ List.length (AnalysisResult.opportunities result)
       = List.length (AnalysisResult.opportunities Sample.analysis)
    /\ map LinkOpportunity.id (AnalysisResult.opportunities result)
       = map LinkOpportunity.id (AnalysisResult.opportunities Sample.analysis)
    /\ map LinkOpportunity.rating (AnalysisResult.opportunities result)
       = map LinkOpportunity.rating (AnalysisResult.opportunities Sample.analysis)
    /\ AnalysisResult.article_type result = AnalysisResult.article_type Sample.analysis
    /\ AnalysisResult.reader_intent result = AnalysisResult.reader_intent Sample.analysis
    /\ AnalysisResult.best_strategy result = AnalysisResult.best_strategy Sample.analysis.
Proof.
  apply (@conforming_response_kept_verbatim example_runtime
           (Sample.env [Some Sample.analysis_response]) empty_world
           "<p>Some html</p>" "https://example.com/t" "243 ballistics" None 3
           Sample.analysis_response Sample.analysis).
  - reflexivity.
  - reflexivity.
  - unfold decodes_to. eexists. eexists. eexists.
    split; [vm_compute; reflexivity|].
    split; [vm_compute; reflexivity|].
    split; [vm_compute; reflexivity|].
    unfold analysis_shape. eexists. eexists.
    split; [reflexivity|]. split; [reflexivity|].
    split; [|repeat split; reflexivity].
    constructor; [|constructor].
    unfold opportunity_shape. eexists. repeat split; reflexivity.
Defined.

(** * Facts about the store *)

Lemma article_first_id (w : World) (article_id : ident) (a : Article.t) :
  article_first w article_id = Some a -> Article.id a = article_id.
Proof.
  unfold article_first. intros H. apply find_some in H.
  now apply Nat.eqb_eq.
Qed.

Lemma find_update_article (a a0 : Article.t) (rows : list Article.t) :
  find (fun r => Nat.eqb (Article.id r) (Article.id a)) rows = Some a0 ->
  find (fun r => Nat.eqb (Article.id r) (Article.id a)) (update_article a rows) = Some a.
Proof.
  induction rows as [|r rows IH]; cbn; [discriminate|].
  destruct (Nat.eqb (Article.id r) (Article.id a)) eqn:Hr.
  - intros _. cbn. now rewrite Nat.eqb_refl.
  - intros H. cbn. rewrite Hr. now apply IH.
Qed.

Lemma update_article_twice (a b : Article.t) (rows : list Article.t) :
  Article.id a = Article.id b ->
  update_article b (update_article a rows) = update_article b rows.
Proof.
  intros Hid. unfold update_article. rewrite map_map. apply map_ext. intros r.
  rewrite Hid.
  destruct (Nat.eqb (Article.id r) (Article.id b)) eqn:Hr.
  - rewrite <- Hid at 1. rewrite Hid. now rewrite Nat.eqb_refl.
  - now rewrite Hr.
Qed.

(** What [analyze_article] leaves when the analyzer client raises. *)
Lemma analyze_article_raises {RT : PyRuntime} (E : Env) (w : World) (article_id : ident)
      (request : AnalysisRequest.t) (article : Article.t) (e : exn) :
  article_first w article_id = Some article ->
  analyze_with_claude_reply (post E (calls w) (article_request article request))
                            (Article.to_url article) (Article.main_kw article)
  = inl e ->
  analyze_article E w article_id request
  = (with_articles
       (update_article
          (Article.set_status "error"
             (Article.set_status "analyzing"
                (Article.set_html_content (AnalysisRequest.html_content request) article)))
          (articles w))
       (called (tick 1 w)),
     inl (HTTPException 500 "Analysis failed: " (Some e))).
Proof.
  intros Ha Hr. unfold analyze_article, analyze_with_claude. rewrite Ha.
  cbn -[update_article analyze_with_claude_reply base_prompt messages_request].
  unfold article_request in Hr. rewrite Hr.
  unfold analysis_failed.
  cbn -[update_article].
  rewrite update_article_twice by reflexivity.
  reflexivity.
Qed.

(** What it leaves when the client returns and the project is found. *)
Lemma analyze_article_returns {RT : PyRuntime} (E : Env) (w : World) (article_id : ident)
      (request : AnalysisRequest.t) (article : Article.t) (project : Project.t)
      (result : AnalysisResult.t) :
  article_first w article_id = Some article ->
  project_first w (Article.project_id article) = Some project ->
  analyze_with_claude_reply (post E (calls w) (article_request article request))
                            (Article.to_url article) (Article.main_kw article)
  = inr result ->
  let analyzing :=
    Article.set_status "analyzing"
      (Article.set_html_content (AnalysisRequest.html_content request) article) in
  let done :=
    Article.set_processing_time
      (total_seconds (utcnow E (ticks w + 1) - utcnow E (ticks w)))
      (Article.set_status "completed"
         (Article.set_analysis_results (AnalysisResult.dict result) analyzing)) in
  analyze_article E w article_id request
  = (with_projects
       (update_project
          (Project.set_completed_articles
             (Z.of_nat (List.length
                          (filter (completed_in (Article.project_id article))
                                  (update_article analyzing (articles w)))))
             project)
          (projects w))
       (with_articles (update_article done (articles w))
                      (tick 1 (called (tick 1 w)))),
     inr result).
Proof.
  intros Ha Hp Hr. unfold analyze_article, analyze_with_claude. rewrite Ha.
  cbn -[update_article update_project analyze_with_claude_reply base_prompt
        messages_request completed_in total_seconds].
  unfold article_request in Hr. rewrite Hr.
  cbn -[update_article update_project completed_in total_seconds].
  unfold project_first in *.
  cbn -[update_article update_project completed_in total_seconds].
  rewrite Hp.
  rewrite update_article_twice by reflexivity.
  reflexivity.
Qed.

Lemma article_first_updated (w w' : World) (article_id : ident) (a0 a : Article.t) :
  article_first w article_id = Some a0 ->
  Article.id a = Article.id a0 ->
  articles w' = update_article a (articles w) ->
  article_first w' article_id = Some a.
Proof.
  intros H0 Hid Hw'. unfold article_first in *. rewrite Hw'.
  pose proof (article_first_id w article_id a0 H0) as Hk.
  rewrite <- Hk, <- Hid in *. now apply find_update_article with (a0 := a0).
Qed.

(** C5: when the endpoint answers with a status other than 200, the
    endpoint is called once and not again, the article is left in
    status [error], and the caller receives the failure: an
    [HTTPException] 500 that reports the client's [Claude API error]. *)
Theorem upstream_status_fails_analysis {RT : PyRuntime} (E : Env) (w : World)
        (article_id : ident) (request : AnalysisRequest.t) (article : Article.t)
        (response : Response) :
  article_first w article_id = Some article ->
  post E (calls w) (article_request article request) = Some response ->
  status_code response <> 200 ->
  snd (analyze_article E w article_id request)
  = inl (HTTPException 500 "Analysis failed: "
           (Some (HTTPException 500 "Claude API error" None)))
  /\ calls (fst (analyze_article E w article_id request)) = S (calls w)
  /\ exists a,
      article_first (fst (analyze_article E w article_id request)) article_id = Some a
      /\ Article.status a = "error".
Proof.
  intros Ha Hp Hs.
  assert (Hr : analyze_with_claude_reply (post E (calls w) (article_request article request))
                 (Article.to_url article) (Article.main_kw article)
               = inl (HTTPException 500 "Claude API error" None)).
  { rewrite Hp. unfold analyze_with_claude_reply.
    now rewrite (try_body_status response Hs). }
  rewrite (analyze_article_raises E w article_id request article _ Ha Hr).
  cbn [fst snd]. split; [reflexivity|]. split; [reflexivity|].
  eexists. split.
  - eapply article_first_updated; [exact Ha | | reflexivity]; reflexivity.
  - reflexivity.
Qed.

Lemma upstream_status_fails_analysis_witness :
  snd (@analyze_article example_runtime (Sample.env [Sample.unavailable])
         (@history example_runtime (Sample.env [Sample.unavailable]) Sample.ingest)
         1%nat Sample.request)
  = inl (HTTPException 500 "Analysis failed: "
           (Some (HTTPException 500 "Claude API error" None)))
  /\ calls (fst (@analyze_article example_runtime (Sample.env [Sample.unavailable])
                   (@history example_runtime (Sample.env [Sample.unavailable]) Sample.ingest)
                   1%nat Sample.request))
     = S (calls (@history example_runtime (Sample.env [Sample.unavailable]) Sample.ingest))
  /\ exists a,
      article_first
        (fst (@analyze_article example_runtime (Sample.env [Sample.unavailable])
                (@history example_runtime (Sample.env [Sample.unavailable]) Sample.ingest)
                1%nat Sample.request)) 1%nat = Some a
      /\ Article.status a = "error".
Proof.
  eapply (@upstream_status_fails_analysis example_runtime (Sample.env [Sample.unavailable])
            (@history example_runtime (Sample.env [Sample.unavailable]) Sample.ingest)
            1%nat Sample.request).
  - vm_compute. reflexivity.
  - vm_compute. reflexivity.
  - vm_compute. discriminate.
Defined.

(** C10: when an analysis completes through the parsed (non-fallback)
    path, the result returned to the caller has processing time 2.5,
    whatever the clock read, while the article is stored as completed
    with the seconds elapsed between the two readings of the clock; the
    two values differ whenever the elapsed time is not exactly 2.5 s. *)
Theorem reported_and_stored_time {RT : PyRuntime} (E : Env) (w : World)
        (article_id : ident) (request : AnalysisRequest.t) (article : Article.t)
        (project : Project.t) (result : AnalysisResult.t) :
  article_first w article_id = Some article ->
  project_first w (Article.project_id article) = Some project ->
  try_body (post E (calls w) (article_request article request)) = inr result ->
  snd (analyze_article E w article_id request) = inr result
  /\ AnalysisResult.processing_time result = 5 # 2
  /\ exists a,
      article_first (fst (analyze_article E w article_id request)) article_id = Some a
      /\ Article.status a = "completed"
      /\ Article.analysis_results a = Some (AnalysisResult.dict result)
      /\ Article.processing_time a
         = Some (total_seconds (utcnow E (ticks w + 1) - utcnow E (ticks w)))
      /\ (utcnow E (ticks w + 1) - utcnow E (ticks w) <> 2500000 ->
          ~ (total_seconds (utcnow E (ticks w + 1) - utcnow E (ticks w))
             == AnalysisResult.processing_time result)%Q).
Proof.
  intros Ha Hp Ht.
  assert (Hr : analyze_with_claude_reply (post E (calls w) (article_request article request))
                 (Article.to_url article) (Article.main_kw article) = inr result).
  { unfold analyze_with_claude_reply. now rewrite Ht. }
  pose proof (try_body_processing_time _ _ Ht) as Hpt.
  rewrite (analyze_article_returns E w article_id request article project result Ha Hp Hr).
  cbn [fst snd]. split; [reflexivity|]. split; [exact Hpt|].
  eexists. split.
  { eapply article_first_updated; [exact Ha | | reflexivity]; reflexivity. }
  split; [reflexivity|]. split; [reflexivity|]. split; [reflexivity|].
  intros Hne. rewrite Hpt. unfold total_seconds, Qeq. cbn [Qnum Qden]. lia.
Qed.

Lemma reported_and_stored_time_witness :
  snd (@analyze_article example_runtime (Sample.env [Some Sample.analysis_response])
         (@history example_runtime (Sample.env [Some Sample.analysis_response])
                   Sample.ingest)
         1%nat Sample.request) = inr Sample.analysis
  /\ AnalysisResult.processing_time Sample.analysis = 5 # 2
  /\ exists a,
      article_first
        (fst (@analyze_article example_runtime (Sample.env [Some Sample.analysis_response])
                (@history example_runtime (Sample.env [Some Sample.analysis_response])
                          Sample.ingest)
                1%nat Sample.request)) 1%nat = Some a
      /\ Article.status a = "completed"
      /\ Article.analysis_results a = Some (AnalysisResult.dict Sample.analysis)
      /\ Article.processing_time a = Some (total_seconds (2800000 - 2100000))
      /\ (2800000 - 2100000 <> 2500000 ->
          ~ (total_seconds (2800000 - 2100000)
             == AnalysisResult.processing_time Sample.analysis)%Q).
Proof.
  eapply (@reported_and_stored_time example_runtime
            (Sample.env [Some Sample.analysis_response])
            (@history example_runtime (Sample.env [Some Sample.analysis_response])
                      Sample.ingest)
            1%nat Sample.request).
  - vm_compute. reflexivity.
  - vm_compute. reflexivity.
  - vm_compute. reflexivity.
Defined.

(** * Facts about ingestion *)

Lemma row_get_value (df : DataFrame) (row : string -> Cell) (col : string) (c : Cell) :
  row_get df row col = inr c -> c = row col.
Proof.
  unfold row_get. destruct (has_column df col); congruence.
Qed.

Lemma iterrows_length (df : DataFrame) (rs : list (string -> Cell)) :
  forall index news, iterrows df index rs = inr news -> List.length news = List.length rs.
Proof.
  induction rs as [|row rs IH]; cbn; intros index news H.
  - now injection H as <-.
  - do 4 (split_bind H; [discriminate|]). injection H as <-.
    cbn. f_equal. now apply IH with (index := S index).
Qed.

Lemma iterrows_nth (df : DataFrame) (rs : list (string -> Cell)) :
  forall index news i row,
    iterrows df index rs = inr news ->
    nth_error rs i = Some row ->
    nth_error news i
    = Some {| new_from_url := py_str (row "From");
              new_to_url := py_str (row "To");
              new_main_kw := py_str (row "Main KW");
              new_order_index := Z.of_nat (index + i) |}.
Proof.
  induction rs as [|r rs IH]; intros index news i row H Hi.
  - destruct i; discriminate.
  - cbn in H. do 4 (split_bind H; [discriminate|]). injection H as <-.
    destruct i as [|i]; cbn in Hi |- *.
    + injection Hi as <-.
      apply row_get_value in E, E0, E1. subst.
      now rewrite Nat.add_0_r.
    + rewrite (IH (S index) l i row E2 Hi).
      now rewrite Nat.add_succ_r.
Qed.

Lemma insert_articles_length (E : Env) (project_id : ident) (news : list NewArticle) :
  forall uuid clock,
    List.length (insert_articles E project_id uuid clock news) = List.length news.
Proof.
  induction news as [|n news IH]; cbn; intros; [reflexivity | now rewrite IH].
Qed.

Lemma insert_articles_nth (E : Env) (project_id : ident) (news : list NewArticle) :
  forall uuid clock i n,
    nth_error news i = Some n ->
    nth_error (insert_articles E project_id uuid clock news) i
    = Some (Article.make (uuid + i)%nat project_id (new_from_url n) (new_to_url n)
              (new_main_kw n) None "pending" None None (utcnow E (clock + i)%nat)
              (new_order_index n)).
Proof.
  induction news as [|m news IH]; intros uuid clock i n Hi.
  - destruct i; discriminate.
  - destruct i as [|i]; cbn in Hi |- *.
    + injection Hi as <-. now rewrite !Nat.add_0_r.
    + rewrite (IH (S uuid) (S clock) i n Hi).
      now rewrite !Nat.add_succ_r.
Qed.

Lemma insert_articles_order (E : Env) (project_id : ident) (df : DataFrame)
      (rs : list (string -> Cell)) :
  forall index news uuid clock,
    iterrows df index rs = inr news ->
    map Article.order_index (insert_articles E project_id uuid clock news)
    = map Z.of_nat (seq index (List.length rs)).
Proof.
  induction rs as [|r rs IH]; cbn; intros index news uuid clock H.
  - now injection H as <-.
  - do 4 (split_bind H; [discriminate|]). injection H as <-.
    cbn. f_equal. now apply IH.
Qed.

(** A successful upload, taken apart. *)
Lemma upload_excel_returns (E : Env) (w : World) (project_id : ident)
      (file : option DataFrame) (total : Z) :
  snd (upload_excel E w project_id file) = inr total ->
  exists project df news,
    project_first w project_id = Some project
    /\ file = Some df
    /\ iterrows df 0 (rows df) = inr news
    /\ total = Z.of_nat (List.length news)
    /\ fst (upload_excel E w project_id file)
       = fresh (List.length news)
           (tick (List.length news)
              (with_projects
                 (update_project
                    (Project.set_status "ready"
                       (Project.set_total_articles (Z.of_nat (List.length news)) project))
                    (projects w))
                 (with_articles
                    (articles w ++ insert_articles E project_id (uuids w) (ticks w) news)
                    w))).
Proof.
  unfold upload_excel.
  destruct (project_first w project_id) as [project|]; [|discriminate].
  destruct (read_articles file) as [e|news] eqn:Hr; [discriminate|].
  cbn [fst snd]. intros [= <-].
  unfold read_articles in Hr.
  destruct file as [df|]; [|discriminate].
  destruct (forallb (has_column df) required_columns); [|discriminate].
  exists project, df, news. auto.
Qed.

Lemma py_str_stored (c : Cell) : stored_as c (py_str c).
Proof.
  destruct c; constructor.
Qed.

(** C6, as the specification states it, fails: a sheet of one row whose
    [Main KW] cell is empty is uploaded with success; the article
    created holds the text [nan] as its [main_kw], which is not the
    row's field. *)
Lemma empty_cell_is_stored_as_nan :
  snd (upload_excel (Sample.env [])
         (@history example_runtime (Sample.env []) [CreateProject "demo"])
         0%nat (Some gap_sheet)) = inr 1
  /\ exists row a,
      nth_error (rows gap_sheet) 0 = Some row
      /\ articles (fst (upload_excel (Sample.env [])
                          (@history example_runtime (Sample.env [])
                                    [CreateProject "demo"])
                          0%nat (Some gap_sheet))) = [a]
      /\ Article.order_index a = 0
      /\ row "Main KW" = EmptyCell
      /\ Article.main_kw a = "nan"
      /\ row "Main KW" <> TextCell (Article.main_kw a).
Proof.
  split; [vm_compute; reflexivity|].
  eexists. eexists. split; [reflexivity|]. split; [vm_compute; reflexivity|].
  split; [reflexivity|]. split; [reflexivity|]. split; [reflexivity|].
  discriminate.
Qed.

(** C6, amended: after a successful upload of a sheet of n rows, the
    articles created are n, appended in row order; the i-th has status
    [pending] and [order_index] i, so the indexes are 0, ..., n-1 in
    row order; its [from_url], [to_url] and [main_kw] are [str] of the
    row's [From], [To] and [Main KW] cells: the cell's text exactly for
    a text cell, the text [nan] for an empty cell, and the rendering of
    the value for any other cell. *)
Theorem upload_creates_rows_in_order (E : Env) (w : World) (project_id : ident)
        (df : DataFrame) (total : Z) :
  snd (upload_excel E w project_id (Some df)) = inr total ->
  exists created,
    articles (fst (upload_excel E w project_id (Some df))) = (articles w ++ created)%list
    /\ total = Z.of_nat (List.length (rows df))
    /\ List.length created = List.length (rows df)
    /\ map Article.order_index created = map Z.of_nat (seq 0 (List.length (rows df)))
    /\ forall i row,
        nth_error (rows df) i = Some row ->
        exists a,
          nth_error created i = Some a
          /\ Article.project_id a = project_id
          /\ Article.status a = "pending"
          /\ Article.order_index a = Z.of_nat i
          /\ stored_as (row "From") (Article.from_url a)
          /\ stored_as (row "To") (Article.to_url a)
          /\ stored_as (row "Main KW") (Article.main_kw a)
          /\ (forall s, row "From" = TextCell s -> Article.from_url a = s)
          /\ (forall s, row "To" = TextCell s -> Article.to_url a = s)
          /\ (forall s, row "Main KW" = TextCell s -> Article.main_kw a = s).
Proof.
  intros H.
  destruct (upload_excel_returns E w project_id (Some df) total H)
    as [project [df' [news [Hp [Hf [Hi [Ht Hw]]]]]]].
  injection Hf as <-.
  pose proof (iterrows_length df (rows df) 0%nat news Hi) as Hlen.
  exists (insert_articles E project_id (uuids w) (ticks w) news).
  rewrite Hw. cbn [articles fresh tick with_projects with_articles].
  split; [reflexivity|]. split; [congruence|].
  split; [now rewrite insert_articles_length|].
  split; [now apply insert_articles_order with (df := df)|].
  intros i row Hrow.
  pose proof (iterrows_nth df (rows df) 0%nat news i row Hi Hrow) as Hn.
  eexists. split; [apply insert_articles_nth; exact Hn|].
  cbn [Article.project_id Article.status Article.order_index Article.from_url
       Article.to_url Article.main_kw new_from_url new_to_url new_main_kw
       new_order_index Nat.add].
  repeat (split; [reflexivity|]).
  repeat (split; [apply py_str_stored|]).
  repeat split; intros s ->; reflexivity.
Qed.

Lemma upload_creates_rows_in_order_witness :
  exists created,
    articles (fst (upload_excel (Sample.env [])
                     (@history example_runtime (Sample.env []) [CreateProject "demo"])
                     0%nat (Some Sample.sheet)))
    = (articles (@history example_runtime (Sample.env []) [CreateProject "demo"])
         ++ created)%list
    /\ 2 = Z.of_nat (List.length (rows Sample.sheet))
    /\ List.length created = List.length (rows Sample.sheet)
    /\ map Article.order_index created
       = map Z.of_nat (seq 0 (List.length (rows Sample.sheet)))
    /\ forall i row,
        nth_error (rows Sample.sheet) i = Some row ->
        exists a,
          nth_error created i = Some a
          /\ Article.project_id a = 0%nat
          /\ Article.status a = "pending"
          /\ Article.order_index a = Z.of_nat i
          /\ stored_as (row "From") (Article.from_url a)
          /\ stored_as (row "To") (Article.to_url a)
          /\ stored_as (row "Main KW") (Article.main_kw a)
          /\ (forall s, row "From" = TextCell s -> Article.from_url a = s)
          /\ (forall s, row "To" = TextCell s -> Article.to_url a = s)
          /\ (forall s, row "Main KW" = TextCell s -> Article.main_kw a = s).
Proof.
  apply (upload_creates_rows_in_order (Sample.env [])
           (@history example_runtime (Sample.env []) [CreateProject "demo"])
           0%nat Sample.sheet 2).
  vm_compute. reflexivity.
Defined.

(** C7: when the sheet lacks one of the columns [From], [To],
    [Main KW], the upload into an existing project fails with status
    400, and the world is what it was: no article is created, and the
    project keeps its [total_articles] and its [status]. *)
Theorem missing_column_rejected (E : Env) (w : World) (project_id : ident)
        (df : DataFrame) (project : Project.t) :
  project_first w project_id = Some project ->
  forallb (has_column df) required_columns = false ->
  snd (upload_excel E w project_id (Some df))
  = inl (HTTPException 400 "Error processing Excel: "
           (Some (HTTPException 400
                    "Excel must contain columns: ['From', 'To', 'Main KW']" None)))
  /\ fst (upload_excel E w project_id (Some df)) = w
  /\ articles (fst (upload_excel E w project_id (Some df))) = articles w
  /\ project_first (fst (upload_excel E w project_id (Some df))) project_id
     = Some project.
Proof.
  intros Hp Hc. unfold upload_excel, read_articles. rewrite Hp, Hc.
  cbn [fst snd]. auto.
Qed.

Lemma missing_column_rejected_witness :
  snd (upload_excel (Sample.env [])
         (@history example_runtime (Sample.env []) [CreateProject "demo"])
         0%nat (Some Sample.short_sheet))
  = inl (HTTPException 400 "Error processing Excel: "
           (Some (HTTPException 400
                    "Excel must contain columns: ['From', 'To', 'Main KW']" None)))
  /\ fst (upload_excel (Sample.env [])
            (@history example_runtime (Sample.env []) [CreateProject "demo"])
            0%nat (Some Sample.short_sheet))
     = @history example_runtime (Sample.env []) [CreateProject "demo"]
  /\ articles (fst (upload_excel (Sample.env [])
                      (@history example_runtime (Sample.env []) [CreateProject "demo"])
                      0%nat (Some Sample.short_sheet)))
     = articles (@history example_runtime (Sample.env []) [CreateProject "demo"])
  /\ project_first (fst (upload_excel (Sample.env [])
                           (@history example_runtime (Sample.env [])
                                     [CreateProject "demo"])
                           0%nat (Some Sample.short_sheet))) 0%nat
     = Some (Project.make 0%nat "demo" 0 0 0 "created").
Proof.
  apply (missing_column_rejected (Sample.env [])
           (@history example_runtime (Sample.env []) [CreateProject "demo"])
           0%nat Sample.short_sheet (Project.make 0%nat "demo" 0 0 0 "created")).
  - vm_compute. reflexivity.
  - vm_compute. reflexivity.
Defined.

(** * Facts about histories *)

Lemma history_snoc {RT : PyRuntime} (E : Env) (cs : list Call) (c : Call) :
  history E (cs ++ [c]) = serve E (history E cs) c.
Proof.
  unfold history. now rewrite fold_left_app.
Qed.

Lemma history_reachable {RT : PyRuntime} (E : Env) (cs : list Call) :
  reachable E (history E cs).
Proof.
  induction cs as [|c cs IH] using rev_ind.
  - apply reach_empty.
  - rewrite history_snoc. now apply reach_serve.
Qed.

Lemma Forall_update_article (P : Article.t -> Prop) (a : Article.t) (rows : list Article.t) :
  P a -> Forall P rows -> Forall P (update_article a rows).
Proof.
  intros Ha Hrows. unfold update_article. apply Forall_map.
  eapply Forall_impl; [|exact Hrows].
  intros r Hr. now destruct (Nat.eqb (Article.id r) (Article.id a)).
Qed.

Lemma insert_articles_well_stored (E : Env) (project_id : ident) (news : list NewArticle) :
  forall uuid clock,
    Forall well_stored (insert_articles E project_id uuid clock news).
Proof.
  induction news as [|n news IH]; cbn; intros uuid clock; constructor; [|apply IH].
  unfold well_stored. cbn.
  split; [reflexivity | split; discriminate].
Qed.

(** The articles a request to [analyze_article] leaves: those it found,
    or those with the article it names replaced by one in status
    [error] or [completed]. *)
Lemma analyze_article_articles {RT : PyRuntime} (E : Env) (w : World) (article_id : ident)
      (request : AnalysisRequest.t) :
  articles (fst (analyze_article E w article_id request)) = articles w
  \/ exists article a,
      article_first w article_id = Some article
      /\ articles (fst (analyze_article E w article_id request))
         = update_article a (articles w)
      /\ Article.id a = Article.id article
      /\ ((Article.status a = "error"
           /\ Article.analysis_results a = Article.analysis_results article)
          \/ (exists r, (Article.status a = "error" \/ Article.status a = "completed")
                        /\ Article.analysis_results a = Some (AnalysisResult.dict r))).
Proof.
  destruct (article_first w article_id) as [article|] eqn:Ha.
  2:{ left. unfold analyze_article. now rewrite Ha. }
  right. exists article.
  destruct (analyze_with_claude_reply (post E (calls w) (article_request article request))
              (Article.to_url article) (Article.main_kw article)) as [e|result] eqn:Hr.
  - rewrite (analyze_article_raises E w article_id request article e Ha Hr).
    eexists. split; [reflexivity|]. split; [reflexivity|]. split; [reflexivity|].
    left. split; reflexivity.
  - destruct (project_first w (Article.project_id article)) as [project|] eqn:Hp.
    + rewrite (analyze_article_returns E w article_id request article project result
                 Ha Hp Hr).
      eexists. split; [reflexivity|]. split; [reflexivity|]. split; [reflexivity|].
      right. exists result. split; [now right | reflexivity].
    + unfold analyze_article, analyze_with_claude. rewrite Ha.
      cbn -[update_article analyze_with_claude_reply base_prompt messages_request
            total_seconds].
      unfold article_request in Hr. rewrite Hr.
      cbn -[update_article total_seconds].
      unfold project_first in *. cbn -[update_article total_seconds]. rewrite Hp.
      unfold analysis_failed. cbn -[update_article total_seconds].
      rewrite update_article_twice by reflexivity.
      eexists. split; [reflexivity|]. split; [reflexivity|]. split; [reflexivity|].
      right. exists result. split; [now left | reflexivity].
Qed.

Lemma article_first_In (w : World) (article_id : ident) (a : Article.t) :
  article_first w article_id = Some a -> In a (articles w).
Proof.
  unfold article_first. intros H. now apply find_some in H.
Qed.

Lemma serve_well_stored {RT : PyRuntime} (E : Env) (w : World) (c : Call) :
  Forall well_stored (articles w) -> Forall well_stored (articles (serve E w c)).
Proof.
  intros Hw. destruct c as [name | project_id file | article_id request]; cbn [serve].
  - exact Hw.
  - unfold upload_excel.
    destruct (project_first w project_id); [|exact Hw].
    destruct (read_articles file); [exact Hw|].
    cbn. apply Forall_app. split; [exact Hw | apply insert_articles_well_stored].
  - destruct (analyze_article_articles E w article_id request)
      as [-> | [article [a [Ha [-> [_ Hcase]]]]]]; [exact Hw|].
    apply Forall_update_article; [|exact Hw].
    apply article_first_In in Ha.
    pose proof (proj1 (Forall_forall _ _) Hw article Ha) as [_ [_ Hdict]].
    destruct Hcase as [[Hs Hres] | [r [Hs Hres]]]; unfold well_stored.
    + rewrite Hs, Hres. repeat split; try discriminate. exact Hdict.
    + rewrite Hres. repeat split; try discriminate.
      * destruct Hs as [-> | ->]; discriminate.
      * intros j [= <-]. now exists r.
Qed.

Lemma reachable_well_stored {RT : PyRuntime} (E : Env) (w : World) :
  reachable E w -> Forall well_stored (articles w).
Proof.
  induction 1 as [|w c _ IH]; [constructor | now apply serve_well_stored].
Qed.

(** C4, as the specification states it, fails: article 1 is analysed
    and completes, then is analysed again while the endpoint answers
    500; it is left in status [error] and still holds the results of
    its completion. *)
Lemma failed_reanalysis_keeps_results :
  @reachable example_runtime Sample.flaky
             (@history example_runtime Sample.flaky Sample.analysed_twice)
  /\ exists a,
      In a (articles (@history example_runtime Sample.flaky Sample.analysed_twice))
      /\ Article.status a = "error"
      /\ Article.analysis_results a = Some (AnalysisResult.dict Sample.analysis)
      /\ ~ (Article.analysis_results a <> None <-> Article.status a = "completed").
Proof.
  split; [apply history_reachable|].
  eexists. split; [vm_compute; left; reflexivity|].
  split; [reflexivity|]. split; [reflexivity|].
  cbn. intros [H _]. discriminate H. discriminate.
Qed.

(** C4, amended: in every world the server can reach, an article in
    status [completed] holds analysis results and an article in status
    [pending] holds none. *)
Theorem completed_has_results {RT : PyRuntime} (E : Env) (w : World) (a : Article.t) :
  reachable E w ->
  In a (articles w) ->
  (Article.status a = "completed" -> Article.analysis_results a <> None)
  /\ (Article.status a = "pending" -> Article.analysis_results a = None).
Proof.
  intros Hw Ha.
  pose proof (proj1 (Forall_forall _ _) (reachable_well_stored E w Hw) a Ha)
    as [Hp [Hc _]].
  split; assumption.
Qed.

Lemma completed_has_results_witness :
  (Article.status
     (Article.make 1%nat 0%nat "https://example.com/a" "https://example.com/t"
        "243 ballistics" (Some "<p>Some html</p>") "completed"
        (Some (AnalysisResult.dict Sample.analysis)) (Some (total_seconds 700000))
        700000 0) = "completed" ->
   Article.analysis_results
     (Article.make 1%nat 0%nat "https://example.com/a" "https://example.com/t"
        "243 ballistics" (Some "<p>Some html</p>") "completed"
        (Some (AnalysisResult.dict Sample.analysis)) (Some (total_seconds 700000))
        700000 0) <> None)
  /\ (Article.status
        (Article.make 1%nat 0%nat "https://example.com/a" "https://example.com/t"
           "243 ballistics" (Some "<p>Some html</p>") "completed"
           (Some (AnalysisResult.dict Sample.analysis)) (Some (total_seconds 700000))
           700000 0) = "pending" ->
      Article.analysis_results
        (Article.make 1%nat 0%nat "https://example.com/a" "https://example.com/t"
           "243 ballistics" (Some "<p>Some html</p>") "completed"
           (Some (AnalysisResult.dict Sample.analysis)) (Some (total_seconds 700000))
           700000 0) = None).
Proof.
  apply (@completed_has_results example_runtime Sample.flaky
           (@history example_runtime Sample.flaky Sample.analysed_once)).
  - apply history_reachable.
  - vm_compute. left. reflexivity.
Defined.

(** * Facts about the export *)

Lemma insert_by_index_perm (a : Article.t) (l : list Article.t) :
  Permutation (insert_by_index a l) (a :: l).
Proof.
  induction l as [|b l IH]; cbn; [reflexivity|].
  destruct (Article.order_index a <=? Article.order_index b); [reflexivity|].
  rewrite IH. apply perm_swap.
Qed.

Lemma order_by_index_perm (l : list Article.t) : Permutation (order_by_index l) l.
Proof.
  induction l as [|a l IH]; cbn; [reflexivity|].
  rewrite insert_by_index_perm. now constructor.
Qed.

Lemma insert_by_index_sorted (a : Article.t) (l : list Article.t) :
  StronglySorted by_index l -> StronglySorted by_index (insert_by_index a l).
Proof.
  induction 1 as [|b l Hl IH Hb]; cbn.
  - repeat constructor.
  - destruct (Article.order_index a <=? Article.order_index b) eqn:Hab.
    + apply Z.leb_le in Hab. constructor; [now constructor|].
      constructor; [exact Hab|].
      eapply Forall_impl; [|exact Hb]. unfold by_index. intros c Hc. lia.
    + apply Z.leb_gt in Hab. constructor; [exact IH|].
      eapply Permutation_Forall; [symmetry; apply insert_by_index_perm|].
      constructor; [unfold by_index; lia | exact Hb].
Qed.

Lemma order_by_index_sorted (l : list Article.t) : StronglySorted by_index (order_by_index l).
Proof.
  induction l as [|a l IH]; cbn; [constructor | now apply insert_by_index_sorted].
Qed.

Lemma export_row_dict (article : Article.t) (o : LinkOpportunity.t) :
  export_row article (LinkOpportunity.dict o) = inr (row_of article o).
Proof.
  reflexivity.
Qed.

Lemma export_rows_dict (article : Article.t) (opps : list LinkOpportunity.t) :
  comprehension (export_row article) (map LinkOpportunity.dict opps)
  = inr (map (row_of article) opps).
Proof.
  induction opps as [|o opps IH]; [reflexivity|].
  cbn [map comprehension]. rewrite export_row_dict, IH. reflexivity.
Qed.

Lemma export_article_dict (article : Article.t) (r : AnalysisResult.t) :
  Article.analysis_results article = Some (AnalysisResult.dict r) ->
  export_article article = inr (rows_of (article, r)).
Proof.
  intros H. unfold export_article. rewrite H.
  cbn [AnalysisResult.dict getitem_key dict_get String.eqb Ascii.eqb Bool.eqb bind py_iter].
  apply export_rows_dict.
Qed.

Lemma export_loop_dict (ars : list (Article.t * AnalysisResult.t)) :
  Forall (fun ar => Article.analysis_results (fst ar)
                    = Some (AnalysisResult.dict (snd ar))) ars ->
  export_loop (map fst ars) = inr (flat_map rows_of ars).
Proof.
  induction 1 as [|[a r] ars Har _ IH]; [reflexivity|].
  cbn [map fst export_loop flat_map].
  rewrite (export_article_dict a r Har). cbn [bind]. rewrite IH. reflexivity.
Qed.

(** Each article of a list of completed, well stored articles comes
    with the result it stores. *)
Lemma stored_results (arts : list Article.t) :
  Forall well_stored arts ->
  Forall (fun a => Article.status a = "completed") arts ->
  exists ars : list (Article.t * AnalysisResult.t),
    map fst ars = arts
    /\ Forall (fun ar => Article.analysis_results (fst ar)
                         = Some (AnalysisResult.dict (snd ar))) ars.
Proof.
  induction arts as [|a arts IH]; intros Hw Hc.
  - exists []. split; constructor.
  - inversion Hw as [|? ? [_ [Hres Hdict]] Hw']; subst.
    inversion Hc as [|? ? Ha Hc']; subst.
    destruct (IH Hw' Hc') as [ars [Hmap Hars]].
    destruct (Article.analysis_results a) as [j|] eqn:Hj; [|now elim (Hres Ha)].
    destruct (Hdict j eq_refl) as [r ->].
    exists ((a, r) :: ars). split; [cbn; now rewrite Hmap|].
    constructor; [exact Hj | exact Hars].
Qed.

Lemma completed_in_true (project_id : ident) (a : Article.t) :
  completed_in project_id a = true
  <-> Article.project_id a = project_id /\ Article.status a = "completed".
Proof.
  unfold completed_in. rewrite andb_true_iff, Nat.eqb_eq, String.eqb_eq. reflexivity.
Qed.

(** C8: in every world the server can reach, the export of a project
    returns the opportunities of exactly the project's articles in
    status [completed], articles in ascending [order_index] and, within
    an article, opportunities in the order they are stored; each row
    carries the article's [from_url], [to_url], [main_kw] and the
    opportunity's [rating], [location], [old_text], [new_text],
    [reasoning]; [total_opportunities] is the number of rows; the world
    is left as it was. *)
Theorem export_flattens_completed {RT : PyRuntime} (E : Env) (w : World)
        (project_id : ident) :
  reachable E w ->
  exists ars : list (Article.t * AnalysisResult.t),
    Permutation (map fst ars) (filter (completed_in project_id) (articles w))
    /\ (forall a, In a (map fst ars)
                  <-> In a (articles w) /\ Article.project_id a = project_id
                      /\ Article.status a = "completed")
    /\ StronglySorted by_index (map fst ars)
    /\ Forall (fun ar => Article.analysis_results (fst ar)
                         = Some (AnalysisResult.dict (snd ar))) ars
    /\ snd (export_results w project_id)
       = inr {| results := flat_map rows_of ars;
                total_opportunities := Z.of_nat (List.length (flat_map rows_of ars)) |}
    /\ fst (export_results w project_id) = w.
Proof.
  intros Hw. apply reachable_well_stored in Hw.
  pose proof (order_by_index_perm (filter (completed_in project_id) (articles w))) as Hperm.
  assert (Hin : forall a, In a (order_by_index (filter (completed_in project_id) (articles w)))
                          <-> In a (articles w) /\ Article.project_id a = project_id
                              /\ Article.status a = "completed").
  { intros a. split.
    - intros Ha. apply (Permutation_in _ Hperm) in Ha. apply filter_In in Ha.
      destruct Ha as [Ha Hc]. apply completed_in_true in Hc. tauto.
    - intros [Ha Hc]. apply (Permutation_in _ (Permutation_sym Hperm)).
      apply filter_In. split; [exact Ha | now apply completed_in_true]. }
  destruct (stored_results (order_by_index (filter (completed_in project_id) (articles w))))
    as [ars [Hmap Hars]].
  { apply Forall_forall. intros a Ha. apply Hin in Ha.
    now apply (proj1 (Forall_forall _ _) Hw a). }
  { apply Forall_forall. intros a Ha. now apply Hin in Ha. }
  exists ars. rewrite Hmap.
  split; [exact Hperm|]. split; [exact Hin|].
  split; [apply order_by_index_sorted|]. split; [exact Hars|].
  split; [|reflexivity].
  unfold export_results. cbn [snd]. rewrite <- Hmap, (export_loop_dict ars Hars).
  reflexivity.
Qed.

Lemma export_flattens_completed_witness :
  exists ars : list (Article.t * AnalysisResult.t),
    Permutation (map fst ars)
      (filter (completed_in 0%nat)
              (articles (@history example_runtime Sample.flaky Sample.analysed_twice)))
    /\ (forall a, In a (map fst ars)
                  <-> In a (articles (@history example_runtime Sample.flaky
                                               Sample.analysed_twice))
                      /\ Article.project_id a = 0%nat
                      /\ Article.status a = "completed")
    /\ StronglySorted by_index (map fst ars)
    /\ Forall (fun ar => Article.analysis_results (fst ar)
                         = Some (AnalysisResult.dict (snd ar))) ars
    /\ snd (export_results (@history example_runtime Sample.flaky Sample.analysed_twice)
                           0%nat)
       = inr {| results := flat_map rows_of ars;
                total_opportunities := Z.of_nat (List.length (flat_map rows_of ars)) |}
    /\ fst (export_results (@history example_runtime Sample.flaky Sample.analysed_twice)
                           0%nat)
       = @history example_runtime Sample.flaky Sample.analysed_twice.
Proof.
  apply (@export_flattens_completed example_runtime Sample.flaky
           (@history example_runtime Sample.flaky Sample.analysed_twice) 0%nat).
  apply history_reachable.
Defined.

(** The export of the sample project after its first article was
    analysed: one row, the opportunity of that article. *)
Example export_after_one_analysis :
  snd (export_results (@history example_runtime Sample.flaky Sample.analysed_once) 0%nat)
  = inr {| results :=
             [ {| row_from_url := "https://example.com/a";
                  row_to_url := "https://example.com/t";
                  row_main_kw := "243 ballistics";
                  row_rating := JInt 42;
                  row_location := JStr "Intro";
                  row_old_text := JStr "Old sentence.";
                  row_new_text := JStr "<p>New sentence.</p>";
                  row_reasoning := JStr "Fits the topic" |} ];
           total_opportunities := 1 |}.
Proof.
  vm_compute. reflexivity.
Qed.

(** After the failed second analysis the article is no longer exported,
    though it still holds results. *)
Example export_after_failed_reanalysis :
  snd (export_results (@history example_runtime Sample.flaky Sample.analysed_twice) 0%nat)
  = inr {| results := []; total_opportunities := 0 |}.
Proof.
  vm_compute. reflexivity.
Qed.

(** C3, at failing inputs. The sample project has two articles. After
    the first is analysed and stored as completed, the project's
    [completed_articles] is 0 while one of its articles is in status
    [completed]: the count is taken from the database before the commit
    that writes the new status. After the second is analysed too it is
    1 while two are completed. After both are then analysed again and
    the endpoint answers 500, it is still 1 while none is completed:
    the error branch does not count. *)
Theorem completed_articles_misses_current :
  map Project.completed_articles
      (projects (@history example_runtime Sample.flaky Sample.analysed_once)) = [0]
  /\ count_completed (@history example_runtime Sample.flaky Sample.analysed_once) 0%nat = 1
  /\ map Project.completed_articles
         (projects (@history example_runtime
                             (Sample.env [Some Sample.analysis_response;
                                          Some Sample.analysis_response])
                             Sample.analysed_both)) = [1]
  /\ count_completed (@history example_runtime
                               (Sample.env [Some Sample.analysis_response;
                                            Some Sample.analysis_response])
                               Sample.analysed_both) 0%nat = 2
  /\ map Project.completed_articles
         (projects (@history example_runtime
                             (Sample.env [Some Sample.analysis_response;
                                          Some Sample.analysis_response;
                                          Sample.unavailable; Sample.unavailable])
                             (Sample.analysed_both
                                ++ [AnalyzeArticle 1%nat Sample.request;
                                    AnalyzeArticle 2%nat Sample.request]))) = [1]
  /\ count_completed (@history example_runtime
                               (Sample.env [Some Sample.analysis_response;
                                            Some Sample.analysis_response;
                                            Sample.unavailable; Sample.unavailable])
                               (Sample.analysed_both
                                  ++ [AnalyzeArticle 1%nat Sample.request;
                                      AnalyzeArticle 2%nat Sample.request])) 0%nat = 0.
Proof.
  vm_compute. repeat split; reflexivity.
Qed.

(** * The progress counter *)

Lemma update_article_ids (a : Article.t) (rows : list Article.t) :
  map Article.id (update_article a rows) = map Article.id rows.
Proof.
  unfold update_article. rewrite map_map. apply map_ext. intros r.
  destruct (Nat.eqb (Article.id r) (Article.id a)) eqn:Hr; [|reflexivity].
  apply Nat.eqb_eq in Hr. now symmetry.
Qed.

Lemma update_article_absent (a : Article.t) (rows : list Article.t) :
  ~ In (Article.id a) (map Article.id rows) -> update_article a rows = rows.
Proof.
  induction rows as [|r rows IH]; cbn; intros Hn; [reflexivity|].
  destruct (Nat.eqb (Article.id r) (Article.id a)) eqn:Hr.
  - apply Nat.eqb_eq in Hr. elim Hn. now left.
  - f_equal. apply IH. intros Hin. apply Hn. now right.
Qed.

Lemma insert_articles_ids (E : Env) (project_id : ident) (news : list NewArticle) :
  forall uuid clock,
    map Article.id (insert_articles E project_id uuid clock news)
    = seq uuid (List.length news).
Proof.
  induction news as [|n news IH]; cbn; intros uuid clock; [reflexivity|].
  now rewrite IH.
Qed.

Lemma analyze_article_uuids {RT : PyRuntime} (E : Env) (w : World) (article_id : ident)
      (request : AnalysisRequest.t) :
  uuids (fst (analyze_article E w article_id request)) = uuids w.
Proof.
  unfold analyze_article, analyze_with_claude, analysis_failed.
  destruct (article_first w article_id) as [article|]; [|reflexivity].
  cbn -[update_article update_project analyze_with_claude_reply base_prompt
        messages_request completed_in total_seconds].
  repeat match goal with
         | |- context [match ?x with _ => _ end] => destruct x
         end; reflexivity.
Qed.

Lemma serve_keys_fresh {RT : PyRuntime} (E : Env) (w : World) (c : Call) :
  keys_fresh w -> keys_fresh (serve E w c).
Proof.
  intros [Hnd Hlt]. destruct c as [name | project_id file | article_id request];
    cbn [serve].
  - split; cbn; [exact Hnd|].
    eapply Forall_impl; [|exact Hlt]. intros k Hk. cbn in *. lia.
  - unfold upload_excel.
    destruct (project_first w project_id); [|now split].
    destruct (read_articles file) as [e|news]; [now split|].
    unfold keys_fresh. cbn. rewrite map_app, insert_articles_ids. split.
    + apply NoDup_app; [exact Hnd | apply seq_NoDup |].
      intros k Hk Hs. apply in_seq in Hs.
      pose proof (proj1 (Forall_forall _ _) Hlt k Hk) as Hb. cbn beta in Hb. lia.
    + apply Forall_app. split.
      * eapply Forall_impl; [|exact Hlt]. intros k Hk. cbn in *. lia.
      * apply Forall_forall. intros k Hk. apply in_seq in Hk. lia.
  - unfold keys_fresh. rewrite analyze_article_uuids.
    destruct (analyze_article_articles E w article_id request)
      as [-> | [article [a [_ [-> _]]]]]; [now split|].
    rewrite update_article_ids. now split.
Qed.

Lemma reachable_keys_fresh {RT : PyRuntime} (E : Env) (w : World) :
  reachable E w -> keys_fresh w.
Proof.
  induction 1 as [|w c _ IH]; [|now apply serve_keys_fresh].
  split; constructor.
Qed.

(** Replacing the one row of key [Article.id a] by a row the filter
    keeps, rather than by one it drops, adds one to the count. *)
Lemma count_after_commit (keep : Article.t -> bool) (a b : Article.t)
      (rows : list Article.t) :
  Article.id a = Article.id b ->
  keep a = false ->
  keep b = true ->
  NoDup (map Article.id rows) ->
  In (Article.id a) (map Article.id rows) ->
  List.length (filter keep (update_article b rows))
  = S (List.length (filter keep (update_article a rows))).
Proof.
  intros Hid Ha Hb. induction rows as [|r rows IH]; intros Hnd Hin; [destruct Hin|].
  inversion Hnd as [|? ? Hr Hnd']; subst.
  cbn [update_article map]. rewrite <- Hid.
  destruct (Nat.eqb (Article.id r) (Article.id a)) eqn:Heq.
  - apply Nat.eqb_eq in Heq.
    fold (update_article a rows). 
    assert (Hb' : map (fun r0 => if Nat.eqb (Article.id r0) (Article.id a) then b else r0) rows
                  = rows).
    { rewrite Hid. apply update_article_absent. rewrite <- Hid, <- Heq. exact Hr. }
    rewrite Hb'.
    rewrite update_article_absent by (rewrite <- Heq; exact Hr).
    cbn [filter]. rewrite Ha, Hb. reflexivity.
  - assert (Hin' : In (Article.id a) (map Article.id rows)).
    { destruct Hin as [Hin|Hin]; [|exact Hin].
      cbn in Hin. rewrite Hin, Nat.eqb_refl in Heq. discriminate. }
    specialize (IH Hnd' Hin'). unfold update_article in IH. rewrite <- Hid in IH.
    cbn [filter]. destruct (keep r); cbn [List.length]; rewrite IH; reflexivity.
Qed.

Lemma find_update_project (p p0 : Project.t) (rows : list Project.t) :
  find (fun r => Nat.eqb (Project.id r) (Project.id p)) rows = Some p0 ->
  find (fun r => Nat.eqb (Project.id r) (Project.id p)) (update_project p rows) = Some p.
Proof.
  induction rows as [|r rows IH]; cbn; [discriminate|].
  destruct (Nat.eqb (Project.id r) (Project.id p)) eqn:Hr.
  - intros _. cbn. now rewrite Nat.eqb_refl.
  - intros H. cbn. rewrite Hr. now apply IH.
Qed.

Lemma project_first_updated (w w' : World) (project_id : ident) (p0 p : Project.t) :
  project_first w project_id = Some p0 ->
  Project.id p = Project.id p0 ->
  projects w' = update_project p (projects w) ->
  project_first w' project_id = Some p.
Proof.
  intros H0 Hid Hw'. unfold project_first in *. rewrite Hw'.
  pose proof (find_some _ _ H0) as [_ Hk]. apply Nat.eqb_eq in Hk.
  rewrite <- Hk, <- Hid in *. now apply find_update_project with (p0 := p0).
Qed.

(** In every reachable world, an analysis that returns leaves the
    project's [completed_articles] one short of the number of its
    completed articles. *)
Lemma completed_articles_one_short {RT : PyRuntime} (E : Env) (w : World)
      (article_id : ident) (request : AnalysisRequest.t) (result : AnalysisResult.t) :
  reachable E w ->
  snd (analyze_article E w article_id request) = inr result ->
  exists article project,
    article_first w article_id = Some article
    /\ project_first (fst (analyze_article E w article_id request))
                     (Article.project_id article) = Some project
    /\ Project.completed_articles project + 1
       = count_completed (fst (analyze_article E w article_id request))
                         (Article.project_id article).
Proof.
  intros Hw Hres. apply reachable_keys_fresh in Hw. destruct Hw as [Hnd _].
  destruct (article_first w article_id) as [article|] eqn:Ha.
  2:{ unfold analyze_article in Hres. rewrite Ha in Hres. discriminate. }
  destruct (analyze_with_claude_reply (post E (calls w) (article_request article request))
              (Article.to_url article) (Article.main_kw article)) as [e|r] eqn:Hr.
  { rewrite (analyze_article_raises E w article_id request article e Ha Hr) in Hres.
    discriminate. }
  destruct (project_first w (Article.project_id article)) as [project|] eqn:Hp.
  2:{ exfalso. revert Hres. unfold analyze_article, analyze_with_claude. rewrite Ha.
      cbn -[update_article analyze_with_claude_reply base_prompt messages_request
            total_seconds].
      unfold article_request in Hr. rewrite Hr.
      cbn -[update_article total_seconds].
      unfold project_first in *. cbn -[update_article total_seconds]. rewrite Hp.
      discriminate. }
  pose proof (analyze_article_returns E w article_id request article project r Ha Hp Hr)
    as Heq. cbv zeta in Heq. rewrite Heq.
  exists article. eexists. cbn [fst]. split; [reflexivity|]. split.
  - eapply project_first_updated; [exact Hp | | reflexivity]; reflexivity.
  - unfold count_completed. cbn [articles with_projects with_articles tick called
                                 Project.completed_articles Project.set_completed_articles].
    match goal with
    | |- context [update_article (Article.set_processing_time ?t ?x) _] =>
        rewrite (count_after_commit (completed_in (Article.project_id article))
                   (Article.set_status "analyzing"
                      (Article.set_html_content (AnalysisRequest.html_content request)
                                                article))
                   (Article.set_processing_time t x) (articles w))
    end.
    + lia.
    + reflexivity.
    + unfold completed_in. cbn. now rewrite andb_false_r.
    + unfold completed_in. cbn. now rewrite Nat.eqb_refl.
    + exact Hnd.
    + cbn. apply in_map. now apply article_first_In with (article_id := article_id).
Qed.

(** * Further facts about ingestion *)

(** X1: an upload that raises leaves the world as it was; it raises 404
    when no project has the key and 400 for every other failure. *)
Theorem upload_failure_changes_nothing (E : Env) (w : World) (project_id : ident)
        (file : option DataFrame) (e : exn) :
  snd (upload_excel E w project_id file) = inl e ->
  fst (upload_excel E w project_id file) = w
  /\ ((project_first w project_id = None
       /\ e = HTTPException 404 "Project not found" None)
      \/ (project_first w project_id <> None
          /\ exists cause, e = HTTPException 400 "Error processing Excel: " (Some cause))).
Proof.
  unfold upload_excel.
  destruct (project_first w project_id) as [project|].
  - destruct (read_articles file) as [cause|news]; cbn [fst snd]; [|discriminate].
    intros [= <-]. split; [reflexivity|]. right. split; [discriminate|].
    now exists cause.
  - cbn [fst snd]. intros [= <-]. split; [reflexivity|]. now left.
Qed.

Lemma upload_failure_changes_nothing_witness :
  fst (upload_excel (Sample.env [])
         (@history example_runtime (Sample.env []) Sample.ingest) 0%nat None)
  = @history example_runtime (Sample.env []) Sample.ingest
  /\ ((project_first (@history example_runtime (Sample.env []) Sample.ingest) 0%nat = None
       /\ HTTPException 400 "Error processing Excel: " (Some ExcelError)
          = HTTPException 404 "Project not found" None)
      \/ (project_first (@history example_runtime (Sample.env []) Sample.ingest) 0%nat
          <> None
          /\ exists cause,
              HTTPException 400 "Error processing Excel: " (Some ExcelError)
              = HTTPException 400 "Error processing Excel: " (Some cause))).
Proof.
  apply (upload_failure_changes_nothing (Sample.env [])
           (@history example_runtime (Sample.env []) Sample.ingest) 0%nat None
           (HTTPException 400 "Error processing Excel: " (Some ExcelError))).
  vm_compute. reflexivity.
Defined.

Lemma insert_articles_in_project (E : Env) (project_id : ident) (news : list NewArticle) :
  forall uuid clock,
    filter (in_project project_id) (insert_articles E project_id uuid clock news)
    = insert_articles E project_id uuid clock news.
Proof.
  induction news as [|n news IH]; cbn; intros uuid clock; [reflexivity|].
  unfold in_project at 1. cbn. rewrite Nat.eqb_refl. now rewrite IH.
Qed.

(** X2: a successful upload overwrites the project's [total_articles]
    with the number of rows of this sheet and sets its status to
    [ready], whatever they were, and keeps its name, creation time and
    [completed_articles]; the articles the project already had stay,
    so after it the project has as many articles as before plus the
    rows, which is more than [total_articles] on a second upload. *)
Theorem upload_overwrites_total (E : Env) (w : World) (project_id : ident)
        (df : DataFrame) (total : Z) :
  snd (upload_excel E w project_id (Some df)) = inr total ->
  exists project project',
    project_first w project_id = Some project
    /\ project_first (fst (upload_excel E w project_id (Some df))) project_id
       = Some project'
    /\ Project.total_articles project' = Z.of_nat (List.length (rows df))
    /\ Project.status project' = "ready"
    /\ Project.name project' = Project.name project
    /\ Project.created_at project' = Project.created_at project
    /\ Project.completed_articles project' = Project.completed_articles project
    /\ List.length (filter (in_project project_id)
                           (articles (fst (upload_excel E w project_id (Some df)))))
       = (List.length (filter (in_project project_id) (articles w))
          + List.length (rows df))%nat.
Proof.
  intros H.
  destruct (upload_excel_returns E w project_id (Some df) total H)
    as [project [df' [news [Hp [Hf [Hi [Ht Hw]]]]]]].
  injection Hf as <-.
  pose proof (iterrows_length df (rows df) 0%nat news Hi) as Hlen.
  exists project. eexists. split; [exact Hp|]. rewrite Hw. split.
  { eapply project_first_updated; [exact Hp | | reflexivity]; reflexivity. }
  cbn [Project.total_articles Project.status Project.name Project.created_at
       Project.completed_articles Project.set_status Project.set_total_articles].
  rewrite Hlen. repeat (split; [reflexivity|]).
  cbn [articles fresh tick with_projects with_articles].
  rewrite filter_app, length_app, insert_articles_in_project, insert_articles_length.
  now rewrite Hlen.
Qed.

Lemma upload_overwrites_total_witness :
  exists project project',
    project_first (@history example_runtime (Sample.env []) Sample.ingest) 0%nat
    = Some project
    /\ project_first
         (fst (upload_excel (Sample.env [])
                 (@history example_runtime (Sample.env []) Sample.ingest)
                 0%nat (Some Sample.sheet))) 0%nat
       = Some project'
    /\ Project.total_articles project' = Z.of_nat (List.length (rows Sample.sheet))
    /\ Project.status project' = "ready"
    /\ Project.name project' = Project.name project
    /\ Project.created_at project' = Project.created_at project
    /\ Project.completed_articles project' = Project.completed_articles project
    /\ List.length
         (filter (in_project 0%nat)
            (articles (fst (upload_excel (Sample.env [])
                              (@history example_runtime (Sample.env []) Sample.ingest)
                              0%nat (Some Sample.sheet)))))
       = (List.length
            (filter (in_project 0%nat)
               (articles (@history example_runtime (Sample.env []) Sample.ingest)))
          + List.length (rows Sample.sheet))%nat.
Proof.
  apply (upload_overwrites_total (Sample.env [])
           (@history example_runtime (Sample.env []) Sample.ingest)
           0%nat Sample.sheet 2).
  vm_compute. reflexivity.
Defined.

Lemma row_get_present (df : DataFrame) (row : string -> Cell) (col : string) :
  has_column df col = true -> row_get df row col = inr (row col).
Proof.
  unfold row_get. now intros ->.
Qed.

Lemma required_columns_present (df : DataFrame) :
  forallb (has_column df) required_columns = true ->
  has_column df "From" = true /\ has_column df "To" = true
  /\ has_column df "Main KW" = true.
Proof.
  cbn. rewrite !andb_true_iff. tauto.
Qed.

Lemma iterrows_required_cells (df1 df2 : DataFrame) :
  forallb (has_column df1) required_columns = true ->
  forallb (has_column df2) required_columns = true ->
  forall rs1 rs2 index,
    map required_cells rs1 = map required_cells rs2 ->
    iterrows df1 index rs1 = iterrows df2 index rs2.
Proof.
  intros H1 H2.
  apply required_columns_present in H1, H2.
  destruct H1 as [F1 [T1 K1]]. destruct H2 as [F2 [T2 K2]].
  induction rs1 as [|r1 rs1 IH]; intros [|r2 rs2] index Hm; try discriminate.
  - reflexivity.
  - cbn [map] in Hm. unfold required_cells in Hm at 1 3.
    injection Hm as Hf Ht Hk Hm.
    cbn [iterrows].
    rewrite !row_get_present by assumption. cbn [bind].
    rewrite (IH rs2 (S index) Hm), Hf, Ht, Hk. reflexivity.
Qed.

(** X3: the upload reads the columns [From], [To] and [Main KW] and
    nothing else: two sheets that have the three columns and agree on
    them row by row give the same world and the same answer, whatever
    other columns they have and in whatever order. *)
Theorem upload_ignores_other_columns (E : Env) (w : World) (project_id : ident)
        (df1 df2 : DataFrame) :
  forallb (has_column df1) required_columns = true ->
  forallb (has_column df2) required_columns = true ->
  map required_cells (rows df1) = map required_cells (rows df2) ->
  upload_excel E w project_id (Some df1) = upload_excel E w project_id (Some df2).
Proof.
  intros H1 H2 Hm. unfold upload_excel, read_articles. rewrite H1, H2.
  now rewrite (iterrows_required_cells df1 df2 H1 H2 (rows df1) (rows df2) 0%nat Hm).
Qed.

Lemma upload_ignores_other_columns_witness :
  upload_excel (Sample.env [])
    (@history example_runtime (Sample.env []) [CreateProject "demo"]) 0%nat
    (Some Sample.sheet)
  = upload_excel (Sample.env [])
      (@history example_runtime (Sample.env []) [CreateProject "demo"]) 0%nat
      (Some wide_sheet).
Proof.
  apply (upload_ignores_other_columns (Sample.env [])
           (@history example_runtime (Sample.env []) [CreateProject "demo"]) 0%nat
           Sample.sheet wide_sheet).
  - reflexivity.
  - reflexivity.
  - reflexivity.
Defined.

(** * Further facts about the analysis of an article *)

(** The three ways a request for a stored article ends. *)
Lemma analyze_article_cases {RT : PyRuntime} (E : Env) (w : World) (article_id : ident)
      (request : AnalysisRequest.t) (article : Article.t) :
  article_first w article_id = Some article ->
  let analyzing :=
    Article.set_status "analyzing"
      (Article.set_html_content (AnalysisRequest.html_content request) article) in
  (exists e,
      analyze_article E w article_id request
      = (with_articles (update_article (Article.set_status "error" analyzing) (articles w))
           (called (tick 1 w)),
         inl (HTTPException 500 "Analysis failed: " (Some e))))
  \/ (exists result,
         let done :=
           Article.set_processing_time
             (total_seconds (utcnow E (ticks w + 1) - utcnow E (ticks w)))
             (Article.set_status "completed"
                (Article.set_analysis_results (AnalysisResult.dict result) analyzing)) in
         (exists project,
             analyze_article E w article_id request
             = (with_projects
                  (update_project
                     (Project.set_completed_articles
                        (Z.of_nat (List.length
                                     (filter (completed_in (Article.project_id article))
                                             (update_article analyzing (articles w)))))
                        project)
                     (projects w))
                  (with_articles (update_article done (articles w))
                                 (tick 1 (called (tick 1 w)))),
                inr result)
             /\ project_first w (Article.project_id article) = Some project)
         \/ (analyze_article E w article_id request
             = (with_articles (update_article (Article.set_status "error" done)
                                              (articles w))
                  (tick 1 (called (tick 1 w))),
                inl (HTTPException 500 "Analysis failed: " (Some AttributeError)))
             /\ project_first w (Article.project_id article) = None)).
Proof.
  intros Ha analyzing.
  destruct (analyze_with_claude_reply (post E (calls w) (article_request article request))
              (Article.to_url article) (Article.main_kw article)) as [e|result] eqn:Hr.
  - left. exists e. now apply analyze_article_raises.
  - right. exists result.
    destruct (project_first w (Article.project_id article)) as [project|] eqn:Hp.
    + left. exists project. split; [|reflexivity].
      now apply (analyze_article_returns E w article_id request article project result).
    + right. split; [|reflexivity].
      unfold analyze_article, analyze_with_claude. rewrite Ha.
      cbn -[update_article analyze_with_claude_reply base_prompt messages_request
            total_seconds].
      unfold article_request in Hr. rewrite Hr.
      cbn -[update_article total_seconds].
      unfold project_first in *. cbn -[update_article total_seconds]. rewrite Hp.
      unfold analysis_failed. cbn -[update_article total_seconds].
      rewrite update_article_twice by reflexivity. reflexivity.
Qed.

(** X4: the answer and the stored status agree. For a stored article,
    when [analyze_article] returns a result the article is stored as
    [completed] with the dict of that very result, and when it raises
    the article is stored as [error] and the exception is an
    [HTTPException] 500 that reports its cause; either way the endpoint
    was called exactly once. *)
Theorem answer_matches_stored_status {RT : PyRuntime} (E : Env) (w : World)
        (article_id : ident) (request : AnalysisRequest.t) (article : Article.t) :
  article_first w article_id = Some article ->
  calls (fst (analyze_article E w article_id request)) = S (calls w)
  /\ exists a,
      article_first (fst (analyze_article E w article_id request)) article_id = Some a
      /\ ((exists result,
              snd (analyze_article E w article_id request) = inr result
              /\ Article.status a = "completed"
              /\ Article.analysis_results a = Some (AnalysisResult.dict result))
          \/ (exists cause,
                 snd (analyze_article E w article_id request)
                 = inl (HTTPException 500 "Analysis failed: " (Some cause))
                 /\ Article.status a = "error")).
Proof.
  intros Ha.
  destruct (analyze_article_cases E w article_id request article Ha)
    as [[e ->] | [result [[project [-> _]] | [-> _]]]]; cbn [fst snd];
    (split; [reflexivity|]); eexists;
    (split; [eapply article_first_updated; [exact Ha | | reflexivity]; reflexivity|]).
  - right. exists e. split; reflexivity.
  - left. exists result. repeat split; reflexivity.
  - right. exists AttributeError. split; reflexivity.
Qed.

Lemma answer_matches_stored_status_witness :
  calls (fst (@analyze_article example_runtime Sample.flaky
                (@history example_runtime Sample.flaky Sample.analysed_once)
                1%nat Sample.request))
  = S (calls (@history example_runtime Sample.flaky Sample.analysed_once))
  /\ exists a,
      article_first
        (fst (@analyze_article example_runtime Sample.flaky
                (@history example_runtime Sample.flaky Sample.analysed_once)
                1%nat Sample.request)) 1%nat = Some a
      /\ ((exists result,
              snd (@analyze_article example_runtime Sample.flaky
                     (@history example_runtime Sample.flaky Sample.analysed_once)
                     1%nat Sample.request) = inr result
              /\ Article.status a = "completed"
              /\ Article.analysis_results a = Some (AnalysisResult.dict result))
          \/ (exists cause,
                 snd (@analyze_article example_runtime Sample.flaky
                        (@history example_runtime Sample.flaky Sample.analysed_once)
                        1%nat Sample.request)
                 = inl (HTTPException 500 "Analysis failed: " (Some cause))
                 /\ Article.status a = "error")).
Proof.
  eapply (@answer_matches_stored_status example_runtime Sample.flaky
            (@history example_runtime Sample.flaky Sample.analysed_once)
            1%nat Sample.request).
  vm_compute. reflexivity.
Defined.

(** X5: a request that names no stored article is answered 404, and
    only such a request is; it changes nothing, reads no clock and
    calls no endpoint. *)
Theorem unknown_article_is_404 {RT : PyRuntime} (E : Env) (w : World)
        (article_id : ident) (request : AnalysisRequest.t) :
  (article_first w article_id = None
   <-> snd (analyze_article E w article_id request)
       = inl (HTTPException 404 "Article not found" None))
  /\ (article_first w article_id = None ->
      fst (analyze_article E w article_id request) = w).
Proof.
  split; [split|].
  - intros Hn. unfold analyze_article. now rewrite Hn.
  - destruct (article_first w article_id) as [article|] eqn:Ha; [|reflexivity].
    destruct (analyze_article_cases E w article_id request article Ha)
      as [[e ->] | [result [[project [-> _]] | [-> _]]]]; discriminate.
  - intros Hn. unfold analyze_article. now rewrite Hn.
Qed.

Lemma find_update_article_other (a : Article.t) (k : ident) (rows : list Article.t) :
  k <> Article.id a ->
  find (fun r => Nat.eqb (Article.id r) k) (update_article a rows)
  = find (fun r => Nat.eqb (Article.id r) k) rows.
Proof.
  intros Hk. induction rows as [|r rows IH]; [reflexivity|].
  cbn. destruct (Nat.eqb (Article.id r) (Article.id a)) eqn:Hr.
  - apply Nat.eqb_eq in Hr.
    assert (Ha : Nat.eqb (Article.id a) k = false) by (apply Nat.eqb_neq; congruence).
    assert (Hr' : Nat.eqb (Article.id r) k = false) by (apply Nat.eqb_neq; congruence).
    now rewrite Ha, Hr'.
  - destruct (Nat.eqb (Article.id r) k); [reflexivity | exact IH].
Qed.

(** X6: analysing one article leaves every other article as it was:
    a lookup by any other key gives what it gave before, whether the
    analysis completes, fails, or finds no article. *)
Theorem analysis_touches_one_article {RT : PyRuntime} (E : Env) (w : World)
        (article_id other : ident) (request : AnalysisRequest.t) :
  other <> article_id ->
  article_first (fst (analyze_article E w article_id request)) other
  = article_first w other.
Proof.
  intros Hne.
  destruct (analyze_article_articles E w article_id request)
    as [Heq | [article [a [Ha [Heq [Hid _]]]]]];
    unfold article_first; rewrite Heq; [reflexivity|].
  apply find_update_article_other.
  rewrite Hid, (article_first_id w article_id article Ha). exact Hne.
Qed.

Lemma analysis_touches_one_article_witness :
  article_first
    (fst (@analyze_article example_runtime Sample.flaky
            (@history example_runtime Sample.flaky Sample.ingest) 1%nat Sample.request))
    2%nat
  = article_first (@history example_runtime Sample.flaky Sample.ingest) 2%nat.
Proof.
  apply (@analysis_touches_one_article example_runtime Sample.flaky
           (@history example_runtime Sample.flaky Sample.ingest) 1%nat 2%nat
           Sample.request).
  discriminate.
Defined.

(** X7: whatever the outcome, the analysed article keeps its key, its
    project, its URLs, its keyword, its [order_index] and its creation
    time, and holds the [html_content] of the request, also when the
    analysis failed. *)
Theorem analysis_keeps_identity {RT : PyRuntime} (E : Env) (w : World)
        (article_id : ident) (request : AnalysisRequest.t) (article : Article.t) :
  article_first w article_id = Some article ->
  exists a,
    article_first (fst (analyze_article E w article_id request)) article_id = Some a
    /\ Article.id a = Article.id article
    /\ Article.project_id a = Article.project_id article
    /\ Article.from_url a = Article.from_url article
    /\ Article.to_url a = Article.to_url article
    /\ Article.main_kw a = Article.main_kw article
    /\ Article.order_index a = Article.order_index article
    /\ Article.created_at a = Article.created_at article
    /\ Article.html_content a = Some (AnalysisRequest.html_content request).
Proof.
  intros Ha.
  destruct (analyze_article_cases E w article_id request article Ha)
    as [[e ->] | [result [[project [-> _]] | [-> _]]]]; cbn [fst snd];
    eexists;
    (split; [eapply article_first_updated; [exact Ha | | reflexivity]; reflexivity|]);
    repeat split; reflexivity.
Qed.

Lemma analysis_keeps_identity_witness :
  exists a,
    article_first
      (fst (@analyze_article example_runtime (Sample.env [Sample.unavailable])
              (@history example_runtime (Sample.env [Sample.unavailable]) Sample.ingest)
              1%nat Sample.request)) 1%nat = Some a
    /\ Article.id a = 1%nat
    /\ Article.project_id a = 0%nat
    /\ Article.from_url a = "https://example.com/a"
    /\ Article.to_url a = "https://example.com/t"
    /\ Article.main_kw a = "243 ballistics"
    /\ Article.order_index a = 0
    /\ Article.created_at a = 700000
    /\ Article.html_content a = Some (AnalysisRequest.html_content Sample.request).
Proof.
  eapply (@analysis_keeps_identity example_runtime (Sample.env [Sample.unavailable])
            (@history example_runtime (Sample.env [Sample.unavailable]) Sample.ingest)
            1%nat Sample.request
            (Article.make 1%nat 0%nat "https://example.com/a" "https://example.com/t"
               "243 ballistics" None "pending" None None 700000 0)).
  vm_compute. reflexivity.
Defined.

(** X8: the fallback is stored like a real analysis. When the endpoint
    answers 200 with something that is not JSON, the article's project
    being stored, the caller gets the fallback result and the article
    is stored as [completed] with the dict of the fallback. *)
Theorem fallback_is_stored_as_completed {RT : PyRuntime} (E : Env) (w : World)
        (article_id : ident) (request : AnalysisRequest.t) (article : Article.t)
        (project : Project.t) (response : Response) :
  article_first w article_id = Some article ->
  project_first w (Article.project_id article) = Some project ->
  post E (calls w) (article_request article request) = Some response ->
  status_code response = 200 ->
  not_valid_json response ->
  snd (analyze_article E w article_id request)
  = inr (fallback (Article.to_url article) (Article.main_kw article))
  /\ exists a,
      article_first (fst (analyze_article E w article_id request)) article_id = Some a
      /\ Article.status a = "completed"
      /\ Article.analysis_results a
         = Some (AnalysisResult.dict
                   (fallback (Article.to_url article) (Article.main_kw article))).
Proof.
  intros Ha Hp Hpost Hs Hn.
  assert (Hr : analyze_with_claude_reply (post E (calls w) (article_request article request))
                 (Article.to_url article) (Article.main_kw article)
               = inr (fallback (Article.to_url article) (Article.main_kw article))).
  { rewrite Hpost. now apply fallback_on_decode_error. }
  rewrite (analyze_article_returns E w article_id request article project _ Ha Hp Hr).
  cbn [fst snd]. split; [reflexivity|]. eexists.
  split; [eapply article_first_updated; [exact Ha | | reflexivity]; reflexivity|].
  split; reflexivity.
Qed.

Lemma fallback_is_stored_as_completed_witness :
  snd (@analyze_article example_runtime (Sample.env [Some Sample.prose_response])
         (@history example_runtime (Sample.env [Some Sample.prose_response]) Sample.ingest)
         1%nat Sample.request)
  = inr (@fallback "https://example.com/t" "243 ballistics")
  /\ exists a,
      article_first
        (fst (@analyze_article example_runtime (Sample.env [Some Sample.prose_response])
                (@history example_runtime (Sample.env [Some Sample.prose_response])
                          Sample.ingest)
                1%nat Sample.request)) 1%nat = Some a
      /\ Article.status a = "completed"
      /\ Article.analysis_results a
         = Some (AnalysisResult.dict
                   (@fallback "https://example.com/t" "243 ballistics")).
Proof.
  eapply (@fallback_is_stored_as_completed example_runtime
            (Sample.env [Some Sample.prose_response])
            (@history example_runtime (Sample.env [Some Sample.prose_response])
                      Sample.ingest)
            1%nat Sample.request
            (Article.make 1%nat 0%nat "https://example.com/a" "https://example.com/t"
               "243 ballistics" None "pending" None None 700000 0)
            (Project.make 0%nat "demo" 0 2 0 "ready") Sample.prose_response).
  - vm_compute. reflexivity.
  - vm_compute. reflexivity.
  - vm_compute. reflexivity.
  - reflexivity.
  - eapply (@text_not_json example_runtime); vm_compute; reflexivity.
Defined.

(** * Further facts about the analyzer client *)

(** X10: the metadata of the answer is optional. When the endpoint
    answers 200 with JSON that gives well-formed opportunities and none
    of [article_type], [reader_intent], [best_strategy], the client
    returns those opportunities with the metadata [Article],
    [Learning], [Strategic placement]. *)
Theorem missing_metadata_gets_defaults {RT : PyRuntime} (E : Env) (w : World)
        (html_content to_url main_kw : string) (custom_prompt : option string)
        (opportunity_count : Z) (response : Response) (claude_response : json)
        (text : string) (d : list (string * json)) (items : list json)
        (opps : list LinkOpportunity.t) :
  post E (calls w)
       (claude_request html_content to_url main_kw custom_prompt opportunity_count)
  = Some response ->
  status_code response = 200 ->
  json_loads (body response) = Some claude_response ->
  response_text claude_response = inr (JStr text) ->
  json_loads text = Some (JDict d) ->
  dict_get d "opportunities" = Some (JList items) ->
  Forall2 opportunity_shape items opps ->
  dict_get d "article_type" = None ->
  dict_get d "reader_intent" = None ->
  dict_get d "best_strategy" = None ->
  snd (analyze_with_claude E w html_content to_url main_kw custom_prompt
                           opportunity_count)
  = inr (AnalysisResult.make opps (5 # 2) "Article" "Learning" "Strategic placement").
Proof.
  intros Hp Hs Hb Ht Hd Ho Hf Ha Hr Hbs.
  unfold analyze_with_claude. cbn [snd]. unfold claude_request in Hp. rewrite Hp.
  unfold analyze_with_claude_reply, try_body, response_json, loads.
  rewrite Hs. cbn [Z.eqb Pos.eqb]. rewrite Hb. cbn [bind]. rewrite Ht. cbn [bind].
  rewrite Hd. cbn [bind].
  unfold parsed_result, getitem_key, get_str. rewrite Ho. cbn [bind py_iter].
  rewrite (shapes_give_opportunities _ _ Hf). cbn [bind].
  rewrite Ha, Hr, Hbs, !validate_str_JStr. reflexivity.
Qed.

Lemma missing_metadata_gets_defaults_witness :
  snd (@analyze_with_claude example_runtime (Sample.env [Some bare_response]) empty_world
         "<p>Some html</p>" "https://example.com/t" "243 ballistics" None 3)
  = inr (AnalysisResult.make [Sample.opportunity] (5 # 2) "Article" "Learning"
           "Strategic placement").
Proof.
  eapply (@missing_metadata_gets_defaults example_runtime (Sample.env [Some bare_response])
            empty_world "<p>Some html</p>" "https://example.com/t" "243 ballistics"
            None 3 bare_response).
  - reflexivity.
  - reflexivity.
  - vm_compute. reflexivity.
  - vm_compute. reflexivity.
  - vm_compute. reflexivity.
  - reflexivity.
  - constructor; [|constructor].
    unfold opportunity_shape. eexists. repeat split; reflexivity.
  - reflexivity.
  - reflexivity.
  - reflexivity.
Defined.

Lemma comprehension_first_error {A B : Type} (f : A -> result B) (xs : list A)
      (x : A) (e : exn) :
  In x xs -> f x = inl e ->
  exists x' e', In x' xs /\ f x' = inl e' /\ comprehension f xs = inl e'.
Proof.
  induction xs as [|y xs IH]; intros Hin Hx; [destruct Hin|].
  cbn [comprehension]. destruct (f y) as [ey|b] eqn:Hy.
  - exists y, ey. cbn. auto.
  - destruct Hin as [-> | Hin]; [congruence|].
    destruct (IH Hin Hx) as [x' [e' [Hin' [Hx' Hc]]]].
    exists x', e'. rewrite Hc. cbn. auto.
Qed.

(** X11: opportunities are accepted all or none. When the endpoint
    answers 200 with a JSON list of opportunities of which one is
    refused (not an object, a field missing or of the wrong type), the
    client returns no result at all: it raises [ValidationError] or
    [TypeError], and the well-formed opportunities are lost with it. *)
Theorem one_refused_opportunity_fails_all {RT : PyRuntime} (E : Env) (w : World)
        (html_content to_url main_kw : string) (custom_prompt : option string)
        (opportunity_count : Z) (response : Response) (claude_response : json)
        (text : string) (d : list (string * json)) (items : list json)
        (item : json) (e : exn) :
  post E (calls w)
       (claude_request html_content to_url main_kw custom_prompt opportunity_count)
  = Some response ->
  status_code response = 200 ->
  json_loads (body response) = Some claude_response ->
  response_text claude_response = inr (JStr text) ->
  json_loads text = Some (JDict d) ->
  dict_get d "opportunities" = Some (JList items) ->
  In item items ->
  LinkOpportunity_kwargs item = inl e ->
  snd (analyze_with_claude E w html_content to_url main_kw custom_prompt
                           opportunity_count) = inl ValidationError
  \/ snd (analyze_with_claude E w html_content to_url main_kw custom_prompt
                              opportunity_count) = inl TypeError.
Proof.
  intros Hp Hs Hb Ht Hd Ho Hin He.
  destruct (comprehension_first_error LinkOpportunity_kwargs items item e Hin He)
    as [x' [e' [_ [Hx' Hc]]]].
  assert (Hres : snd (analyze_with_claude E w html_content to_url main_kw custom_prompt
                                          opportunity_count)
                 = if is_JSONDecodeError e' then inr (fallback to_url main_kw)
                   else inl e').
  { unfold analyze_with_claude. cbn [snd]. unfold claude_request in Hp. rewrite Hp.
    unfold analyze_with_claude_reply, try_body, response_json, loads.
    rewrite Hs. cbn [Z.eqb Pos.eqb]. rewrite Hb. cbn [bind]. rewrite Ht. cbn [bind].
    rewrite Hd. cbn [bind].
    unfold parsed_result, getitem_key. rewrite Ho. cbn [bind py_iter].
    rewrite Hc. reflexivity. }
  rewrite Hres.
  apply LinkOpportunity_kwargs_error in Hx'. destruct Hx' as [-> | ->]; cbn; auto.
Qed.

Lemma one_refused_opportunity_fails_all_witness :
  snd (@analyze_with_claude example_runtime (Sample.env [Some partial_response])
         empty_world "<p>Some html</p>" "https://example.com/t" "243 ballistics"
         None 3) = inl ValidationError
  \/ snd (@analyze_with_claude example_runtime (Sample.env [Some partial_response])
            empty_world "<p>Some html</p>" "https://example.com/t" "243 ballistics"
            None 3) = inl TypeError.
Proof.
  eapply (@one_refused_opportunity_fails_all example_runtime
            (Sample.env [Some partial_response]) empty_world
            "<p>Some html</p>" "https://example.com/t" "243 ballistics" None 3
            partial_response _ _ _ _ (JDict [("id", JInt 8)]) ValidationError).
  - reflexivity.
  - reflexivity.
  - vm_compute. reflexivity.
  - vm_compute. reflexivity.
  - vm_compute. reflexivity.
  - reflexivity.
  - right. left. reflexivity.
  - reflexivity.
Defined.

(** * Invariants of the store *)

(** What a request for a stored article does to the tables. *)
Lemma analyze_article_tables {RT : PyRuntime} (E : Env) (w : World) (article_id : ident)
      (request : AnalysisRequest.t) (article : Article.t) :
  article_first w article_id = Some article ->
  exists a,
    articles (fst (analyze_article E w article_id request))
    = update_article a (articles w)
    /\ Article.id a = Article.id article
    /\ Article.project_id a = Article.project_id article
    /\ settled a
    /\ (projects (fst (analyze_article E w article_id request)) = projects w
        \/ exists project,
            project_first w (Article.project_id article) = Some project
            /\ projects (fst (analyze_article E w article_id request))
               = update_project
                   (Project.set_completed_articles
                      (Z.of_nat
                         (List.length
                            (filter (completed_in (Article.project_id article))
                               (update_article
                                  (Article.set_status "analyzing"
                                     (Article.set_html_content
                                        (AnalysisRequest.html_content request) article))
                                  (articles w)))))
                      project)
                   (projects w)).
Proof.
  intros Ha.
  destruct (analyze_article_cases E w article_id request article Ha)
    as [[e ->] | [result [[project [-> Hp]] | [-> _]]]]; cbn [fst snd];
    eexists; (split; [reflexivity|]); (split; [reflexivity|]); (split; [reflexivity|]).
  - split; [|now left]. right. right. split; [reflexivity | discriminate].
  - split; [|right; now exists project].
    right. left. split; [reflexivity|]. split; discriminate.
  - split; [|now left]. right. right. split; [reflexivity | discriminate].
Qed.

Lemma insert_articles_settled (E : Env) (project_id : ident) (news : list NewArticle) :
  forall uuid clock, Forall settled (insert_articles E project_id uuid clock news).
Proof.
  induction news as [|n news IH]; cbn; intros uuid clock; constructor; [|apply IH].
  left. cbn. auto.
Qed.

Lemma serve_articles {RT : PyRuntime} (E : Env) (w : World) (c : Call) :
  articles (serve E w c) = articles w
  \/ (exists project_id news uuid clock,
         articles (serve E w c)
         = (articles w ++ insert_articles E project_id uuid clock news)%list
         /\ project_first w project_id <> None
         /\ uuid = uuids w
         /\ uuids (serve E w c) = (uuids w + List.length news)%nat)
  \/ (exists article_id request article,
         c = AnalyzeArticle article_id request
         /\ article_first w article_id = Some article).
Proof.
  destruct c as [name | project_id file | article_id request]; cbn [serve].
  - now left.
  - unfold upload_excel.
    destruct (project_first w project_id) as [project|] eqn:Hp; [|now left].
    destruct (read_articles file) as [e|news]; [now left|].
    right. left. exists project_id, news, (uuids w), (ticks w). cbn.
    repeat split. congruence.
  - destruct (article_first w article_id) as [article|] eqn:Ha.
    + right. right. now exists article_id, request, article.
    + left. unfold analyze_article. now rewrite Ha.
Qed.

Lemma reachable_settled {RT : PyRuntime} (E : Env) (w : World) :
  reachable E w -> forall a, In a (articles w) -> settled a.
Proof.
  intros Hw. apply Forall_forall.
  induction Hw as [|w c _ IH]; [constructor|].
  destruct (serve_articles E w c)
    as [-> | [[pid [news [uuid [clock [-> _]]]]] | [aid [request [article [-> Ha]]]]]].
  - exact IH.
  - apply Forall_app. split; [exact IH | apply insert_articles_settled].
  - cbn [serve].
    destruct (analyze_article_tables E w aid request article Ha)
      as [a [-> [_ [_ [Hs _]]]]].
    now apply Forall_update_article.
Qed.

(** X12: between two requests every stored article is [pending],
    [completed] or [error], never [analyzing]; a pending article has
    neither HTML nor processing time, a completed one has both, and an
    article in error has the HTML of the failed request. *)
Theorem stored_articles_are_settled {RT : PyRuntime} (E : Env) (w : World)
        (a : Article.t) :
  reachable E w ->
  In a (articles w) ->
  settled a.
Proof.
  intros Hw Ha. now apply (reachable_settled E w Hw).
Qed.

Lemma stored_articles_are_settled_witness :
  settled
    (Article.make 1%nat 0%nat "https://example.com/a" "https://example.com/t"
       "243 ballistics" (Some "<p>Some html</p>") "error"
       (Some (AnalysisResult.dict Sample.analysis)) (Some (total_seconds 700000))
       700000 0).
Proof.
  apply (@stored_articles_are_settled example_runtime Sample.flaky
           (@history example_runtime Sample.flaky Sample.analysed_twice)).
  - apply history_reachable.
  - vm_compute. left. reflexivity.
Defined.

Lemma find_app_some {A : Type} (f : A -> bool) (l l' : list A) (x : A) :
  find f l = Some x -> find f (l ++ l') = Some x.
Proof.
  induction l as [|y l IH]; cbn; [discriminate|].
  destruct (f y); [trivial | exact IH].
Qed.

Lemma find_update_project_found (p : Project.t) (k : ident) (rows : list Project.t) :
  find (fun r => Nat.eqb (Project.id r) k) rows <> None ->
  find (fun r => Nat.eqb (Project.id r) k) (update_project p rows) <> None.
Proof.
  induction rows as [|r rows IH]; [trivial|].
  change (update_project p (r :: rows))
    with ((if Nat.eqb (Project.id r) (Project.id p) then p else r)
            :: update_project p rows).
  cbn [find]. destruct (Nat.eqb (Project.id r) (Project.id p)) eqn:Hr.
  - apply Nat.eqb_eq in Hr.
    destruct (Nat.eqb (Project.id p) k) eqn:Hpk; [discriminate|].
    rewrite Hr, Hpk. exact IH.
  - destruct (Nat.eqb (Project.id r) k); [discriminate | exact IH].
Qed.

Lemma update_project_ids (p : Project.t) (rows : list Project.t) :
  map Project.id (update_project p rows) = map Project.id rows.
Proof.
  unfold update_project. rewrite map_map. apply map_ext. intros r.
  destruct (Nat.eqb (Project.id r) (Project.id p)) eqn:Hr; [|reflexivity].
  apply Nat.eqb_eq in Hr. now symmetry.
Qed.

Lemma insert_articles_project (E : Env) (project_id : ident) (news : list NewArticle) :
  forall uuid clock,
    Forall (fun a => Article.project_id a = project_id)
           (insert_articles E project_id uuid clock news).
Proof.
  induction news as [|n news IH]; cbn; intros uuid clock; constructor;
    [reflexivity | apply IH].
Qed.

(** The projects a request leaves: those it found, those and a new one,
    or those with one row rewritten under its key. *)
Lemma serve_projects {RT : PyRuntime} (E : Env) (w : World) (c : Call) :
  projects (serve E w c) = projects w
  \/ (exists p, projects (serve E w c) = (projects w ++ [p])%list
                /\ Project.id p = uuids w
                /\ uuids (serve E w c) = S (uuids w)
                /\ Project.completed_articles p = 0
                /\ articles (serve E w c) = articles w)
  \/ (exists p, projects (serve E w c) = update_project p (projects w)).
Proof.
  destruct c as [name | project_id file | article_id request]; cbn [serve].
  - right. left. eexists. cbn. repeat split. now rewrite Nat.add_1_r.
  - unfold upload_excel.
    destruct (project_first w project_id) as [project|]; [|now left].
    destruct (read_articles file) as [e|news]; [now left|].
    right. right. eexists. reflexivity.
  - destruct (article_first w article_id) as [article|] eqn:Ha.
    + destruct (analyze_article_tables E w article_id request article Ha)
        as [a [_ [_ [_ [_ [-> | [project [_ ->]]]]]]]]; [now left|].
      right. right. eexists. reflexivity.
    + left. unfold analyze_article. now rewrite Ha.
Qed.

Lemma serve_uuids {RT : PyRuntime} (E : Env) (w : World) (c : Call) :
  (uuids w <= uuids (serve E w c))%nat.
Proof.
  destruct c as [name | project_id file | article_id request]; cbn [serve].
  - cbn. lia.
  - unfold upload_excel.
    destruct (project_first w project_id); [|cbn; lia].
    destruct (read_articles file); cbn; lia.
  - rewrite analyze_article_uuids. lia.
Qed.

Lemma serve_projects_known {RT : PyRuntime} (E : Env) (w : World) (c : Call) :
  projects_known w -> projects_known (serve E w c).
Proof.
  intros [Harts Hkeys].
  assert (Hfound : forall k, project_first w k <> None ->
                             project_first (serve E w c) k <> None).
  { intros k Hk. unfold project_first in *.
    destruct (serve_projects E w c) as [-> | [[p [-> _]] | [p ->]]].
    - exact Hk.
    - destruct (find _ (projects w)) as [x|] eqn:Hx; [|contradiction].
      now rewrite (find_app_some _ _ _ x Hx).
    - now apply find_update_project_found. }
  assert (Hsome : forall k, (exists p, project_first w k = Some p) ->
                            exists p, project_first (serve E w c) k = Some p).
  { intros k [p Hp].
    destruct (project_first (serve E w c) k) as [p'|] eqn:Hp'; [now exists p'|].
    exfalso. apply (Hfound k); congruence. }
  split.
  - destruct (serve_articles E w c)
      as [-> | [[pid [news [uuid [clock [-> [Hp _]]]]]] | [aid [request [article [-> Ha]]]]]].
    + eapply Forall_impl; [|exact Harts]. intros a. apply Hsome.
    + apply Forall_app. split.
      * eapply Forall_impl; [|exact Harts]. intros a. apply Hsome.
      * eapply Forall_impl; [|apply insert_articles_project].
        intros a ->. apply Hsome.
        destruct (project_first w pid) as [p|]; [now exists p | contradiction].
    + cbn [serve].
      destruct (analyze_article_tables E w aid request article Ha)
        as [a [Heq [_ [Hpid _]]]].
      rewrite Heq. apply Forall_update_article.
      * rewrite Hpid. apply (Hsome (Article.project_id article)).
        apply (proj1 (Forall_forall _ _) Harts article).
        now apply article_first_In with (article_id := aid).
      * eapply Forall_impl; [|exact Harts]. intros b. apply (Hsome _).
  - pose proof (serve_uuids E w c) as Hle.
    apply Forall_forall. intros p Hp.
    assert (Hid : In (Project.id p) (map Project.id (projects (serve E w c))))
      by now apply in_map.
    destruct (serve_projects E w c) as [Heq | [[p' [Heq [Hk [Hu _]]]] | [p' Heq]]];
      rewrite Heq in Hid.
    + apply in_map_iff in Hid. destruct Hid as [p0 [<- Hp0]].
      pose proof (proj1 (Forall_forall _ _) Hkeys p0 Hp0) as Hb. cbn beta in Hb. lia.
    + rewrite map_app in Hid. apply in_app_or in Hid. destruct Hid as [Hid | Hid].
      * apply in_map_iff in Hid. destruct Hid as [p0 [<- Hp0]].
        pose proof (proj1 (Forall_forall _ _) Hkeys p0 Hp0) as Hb. cbn beta in Hb. lia.
      * cbn in Hid. destruct Hid as [<- | []]. lia.
    + rewrite update_project_ids in Hid.
      apply in_map_iff in Hid. destruct Hid as [p0 [<- Hp0]].
      pose proof (proj1 (Forall_forall _ _) Hkeys p0 Hp0) as Hb. cbn beta in Hb. lia.
Qed.

Lemma reachable_projects_known {RT : PyRuntime} (E : Env) (w : World) :
  reachable E w -> projects_known w.
Proof.
  induction 1 as [|w c _ IH]; [|now apply serve_projects_known].
  split; constructor.
Qed.

(** X13: no article is ever without its project. In every world the
    server can reach, the project of each stored article is stored, so
    the count of [analyze_article] always finds the project it
    updates. *)
Theorem every_article_has_its_project {RT : PyRuntime} (E : Env) (w : World)
        (a : Article.t) :
  reachable E w ->
  In a (articles w) ->
  exists project,
    project_first w (Article.project_id a) = Some project
    /\ Project.id project = Article.project_id a.
Proof.
  intros Hw Ha. apply reachable_projects_known in Hw. destruct Hw as [Harts _].
  destruct (proj1 (Forall_forall _ _) Harts a Ha) as [project Hp].
  exists project. split; [exact Hp|].
  unfold project_first in Hp. apply find_some in Hp. now apply Nat.eqb_eq.
Qed.

Lemma every_article_has_its_project_witness :
  exists project,
    project_first (@history example_runtime Sample.flaky Sample.analysed_twice)
                  (Article.project_id
                     (Article.make 2%nat 0%nat "https://example.com/b"
                        "https://example.com/u" "308" None "pending" None None
                        1400000 1))
    = Some project
    /\ Project.id project
       = Article.project_id
           (Article.make 2%nat 0%nat "https://example.com/b"
              "https://example.com/u" "308" None "pending" None None 1400000 1).
Proof.
  apply (@every_article_has_its_project example_runtime Sample.flaky
           (@history example_runtime Sample.flaky Sample.analysed_twice)).
  - apply history_reachable.
  - vm_compute. right. left. reflexivity.
Defined.

Lemma same_key_same_article (rows : list Article.t) (x y : Article.t) :
  NoDup (map Article.id rows) ->
  In x rows -> In y rows -> Article.id x = Article.id y -> x = y.
Proof.
  induction rows as [|r rows IH]; intros Hnd Hx Hy Hid; [destruct Hx|].
  inversion Hnd as [|? ? Hr Hnd']; subst.
  destruct Hx as [-> | Hx], Hy as [-> | Hy].
  - reflexivity.
  - elim Hr. rewrite Hid. now apply in_map.
  - elim Hr. rewrite <- Hid. now apply in_map.
  - now apply IH.
Qed.

Lemma update_article_project_count (project_id : ident) (a : Article.t)
      (rows : list Article.t) :
  (forall r, In r rows -> Article.id r = Article.id a ->
             Article.project_id r = Article.project_id a) ->
  List.length (filter (in_project project_id) (update_article a rows))
  = List.length (filter (in_project project_id) rows).
Proof.
  induction rows as [|r rows IH]; intros Hsame; [reflexivity|].
  change (update_article a (r :: rows))
    with ((if Nat.eqb (Article.id r) (Article.id a) then a else r)
            :: update_article a rows).
  cbn [filter].
  assert (Hhead : in_project project_id
                    (if Nat.eqb (Article.id r) (Article.id a) then a else r)
                  = in_project project_id r).
  { destruct (Nat.eqb (Article.id r) (Article.id a)) eqn:Hr; [|reflexivity].
    apply Nat.eqb_eq in Hr. unfold in_project.
    now rewrite (Hsame r (or_introl eq_refl) Hr). }
  rewrite Hhead.
  destruct (in_project project_id r); cbn [List.length]; rewrite IH; auto;
    intros r' Hr'; apply Hsame; now right.
Qed.

Lemma filter_length_le {A : Type} (f g : A -> bool) (l : list A) :
  (forall x, f x = true -> g x = true) ->
  (List.length (filter f l) <= List.length (filter g l))%nat.
Proof.
  intros Hfg. induction l as [|x l IH]; cbn; [lia|].
  destruct (f x) eqn:Hf.
  - rewrite (Hfg x Hf). cbn. lia.
  - destruct (g x); cbn; lia.
Qed.

Lemma completed_in_in_project (project_id : ident) (a : Article.t) :
  completed_in project_id a = true -> in_project project_id a = true.
Proof.
  unfold completed_in, in_project. now intros H%andb_true_iff.
Qed.

Lemma Forall_update_project (P : Project.t -> Prop) (p : Project.t)
      (rows : list Project.t) :
  P p -> Forall P rows -> Forall P (update_project p rows).
Proof.
  intros Hp Hrows. unfold update_project. apply Forall_map.
  eapply Forall_impl; [|exact Hrows].
  intros r Hr. now destruct (Nat.eqb (Project.id r) (Project.id p)).
Qed.

(** No request takes an article away from a project. *)
Lemma serve_project_count {RT : PyRuntime} (E : Env) (w : World) (c : Call)
      (project_id : ident) :
  keys_fresh w ->
  (List.length (filter (in_project project_id) (articles w))
   <= List.length (filter (in_project project_id) (articles (serve E w c))))%nat.
Proof.
  intros [Hnd _].
  destruct (serve_articles E w c)
    as [-> | [[pid [news [uuid [clock [-> _]]]]] | [aid [request [article [-> Ha]]]]]].
  - lia.
  - rewrite filter_app, length_app. lia.
  - cbn [serve].
    destruct (analyze_article_tables E w aid request article Ha)
      as [a [-> [Hid [Hpid _]]]].
    rewrite update_article_project_count; [lia|].
    intros r Hr Hrid. rewrite Hpid. f_equal.
    apply (same_key_same_article (articles w)); try assumption.
    + now apply article_first_In with (article_id := aid).
    + congruence.
Qed.

Lemma serve_counters_bounded {RT : PyRuntime} (E : Env) (w : World) (c : Call) :
  keys_fresh w -> counters_bounded w -> counters_bounded (serve E w c).
Proof.
  intros Hkeys Hb. unfold counters_bounded in *.
  assert (Hold : Forall (fun p => 0 <= Project.completed_articles p
                                  <= Z.of_nat (List.length
                                                 (filter (in_project (Project.id p))
                                                         (articles (serve E w c)))))
                        (projects w)).
  { eapply Forall_impl; [|exact Hb]. intros p Hp. cbn beta in *.
    pose proof (serve_project_count E w c (Project.id p) Hkeys). lia. }
  destruct c as [name | project_id file | article_id request].
  - cbn [serve create_project fst]. cbn [projects fresh tick with_projects].
    apply Forall_app. split; [exact Hold|].
    constructor; [|constructor]. cbn. lia.
  - revert Hold. cbn [serve]. unfold upload_excel.
    destruct (project_first w project_id) as [project|] eqn:Hp; [|trivial].
    destruct (read_articles file) as [e|news]; [trivial|].
    cbn [fst]. cbn [projects articles fresh tick with_projects with_articles].
    intros Hold. apply Forall_update_project; [|exact Hold].
    unfold project_first in Hp. apply find_some in Hp. destruct Hp as [Hin _].
    apply (proj1 (Forall_forall _ _) Hold project Hin).
  - destruct (article_first w article_id) as [article|] eqn:Ha.
    2:{ cbn [serve]. unfold analyze_article. rewrite Ha. exact Hb. }
    pose proof (serve_project_count E w (AnalyzeArticle article_id request)
                  (Article.project_id article) Hkeys) as Hmono.
    revert Hold Hmono. cbn [serve].
    destruct (analyze_article_tables E w article_id request article Ha)
      as [a [Harts [Hid [Hpid [_ [-> | [project [Hp ->]]]]]]]]; intros Hold Hmono;
      [exact Hold|].
    apply Forall_update_project; [|exact Hold].
    cbn [Project.completed_articles Project.id Project.set_completed_articles].
    unfold project_first in Hp. apply find_some in Hp. destruct Hp as [_ Hk].
    apply Nat.eqb_eq in Hk. rewrite Hk.
    split; [lia|].
    pose proof (filter_length_le (completed_in (Article.project_id article))
                  (in_project (Article.project_id article))
                  (update_article
                     (Article.set_status "analyzing"
                        (Article.set_html_content
                           (AnalysisRequest.html_content request) article))
                     (articles w))
                  (completed_in_in_project (Article.project_id article))) as Hle.
    rewrite update_article_project_count in Hle; [lia|].
    intros r Hr Hrid. cbn in Hrid |- *. f_equal.
    destruct Hkeys as [Hnd _].
    apply (same_key_same_article (articles w)); try assumption.
    now apply article_first_In with (article_id := article_id).
Qed.

Lemma reachable_counters_bounded {RT : PyRuntime} (E : Env) (w : World) :
  reachable E w -> counters_bounded w.
Proof.
  induction 1 as [|w c Hw IH]; [constructor|].
  apply serve_counters_bounded; [now apply (reachable_keys_fresh E) | exact IH].
Qed.

(** X14: in every world the server can reach, a project's
    [completed_articles] is at least 0 and at most the number of
    articles stored for the project. *)
Theorem counter_within_project_size {RT : PyRuntime} (E : Env) (w : World)
        (p : Project.t) :
  reachable E w ->
  In p (projects w) ->
  0 <= Project.completed_articles p
  <= Z.of_nat (List.length (filter (in_project (Project.id p)) (articles w))).
Proof.
  intros Hw Hp. apply reachable_counters_bounded in Hw.
  apply (proj1 (Forall_forall _ _) Hw p Hp).
Qed.

Lemma counter_within_project_size_witness :
  0 <= Project.completed_articles (Project.make 0%nat "demo" 0 2 1 "ready")
  <= Z.of_nat
       (List.length
          (filter (in_project (Project.id (Project.make 0%nat "demo" 0 2 1 "ready")))
                  (articles (@history example_runtime
                               (Sample.env [Some Sample.analysis_response;
                                            Some Sample.analysis_response])
                               Sample.analysed_both)))).
Proof.
  apply (@counter_within_project_size example_runtime
           (Sample.env [Some Sample.analysis_response; Some Sample.analysis_response])
           (@history example_runtime
              (Sample.env [Some Sample.analysis_response; Some Sample.analysis_response])
              Sample.analysed_both)).
  - apply history_reachable.
  - vm_compute. left. reflexivity.
Defined.

(** * Facts about the routes that read *)

Lemma filter_none {A : Type} (f : A -> bool) (l : list A) :
  (forall x, In x l -> f x = false) -> filter f l = [].
Proof.
  induction l as [|x l IH]; intros H; [reflexivity|].
  cbn. rewrite (H x (or_introl eq_refl)). apply IH. intros y Hy. apply H. now right.
Qed.

(** X15: the export does not look the project up. For a key under
    which no article is in status [completed], among them every key of
    no project at all, it answers with no rows and a total of 0, and
    raises nothing. *)
Theorem export_without_completed_is_empty (w : World) (project_id : ident) :
  (forall a, In a (articles w) -> Article.project_id a = project_id ->
             Article.status a <> "completed") ->
  export_results w project_id
  = (w, inr {| results := []; total_opportunities := 0 |}).
Proof.
  intros H. unfold export_results.
  rewrite (filter_none (completed_in project_id) (articles w)); [reflexivity|].
  intros a Ha. destruct (completed_in project_id a) eqn:Hc; [|reflexivity].
  apply completed_in_true in Hc. destruct Hc as [Hp Hs]. now elim (H a Ha Hp).
Qed.

Lemma export_without_completed_is_empty_witness :
  export_results (@history example_runtime Sample.flaky Sample.analysed_once) 7%nat
  = (@history example_runtime Sample.flaky Sample.analysed_once,
     inr {| results := []; total_opportunities := 0 |}).
Proof.
  apply (export_without_completed_is_empty
           (@history example_runtime Sample.flaky Sample.analysed_once) 7%nat).
  intros a Ha Hp. vm_compute in Ha.
  destruct Ha as [<- | [<- | []]]; discriminate Hp.
Defined.

Lemma insert_by_index_least (a : Article.t) (l : list Article.t) :
  Forall (by_index a) l -> insert_by_index a l = a :: l.
Proof.
  intros H. destruct l as [|b l]; [reflexivity|].
  inversion H as [|? ? Hab _]; subst. cbn.
  unfold by_index in Hab. apply Z.leb_le in Hab. now rewrite Hab.
Qed.

Lemma order_by_index_of_sorted (l : list Article.t) :
  StronglySorted by_index l -> order_by_index l = l.
Proof.
  induction 1 as [|a l _ IH Ha]; [reflexivity|].
  change (order_by_index (a :: l)) with (insert_by_index a (order_by_index l)).
  rewrite IH. now apply insert_by_index_least.
Qed.

Lemma consecutive_indexes_sorted (l : list Article.t) :
  forall k n,
    map Article.order_index l = map Z.of_nat (seq k n) ->
    StronglySorted by_index l.
Proof.
  induction l as [|a l IH]; intros k n Hm; [constructor|].
  destruct n as [|n]; [discriminate|].
  cbn in Hm. injection Hm as Ha Hm.
  constructor; [now apply (IH (S k) n)|].
  apply Forall_forall. intros b Hb. unfold by_index. rewrite Ha.
  assert (Hin : In (Article.order_index b) (map Z.of_nat (seq (S k) n))).
  { rewrite <- Hm. now apply in_map. }
  apply in_map_iff in Hin. destruct Hin as [i [<- Hi]]. apply in_seq in Hi. lia.
Qed.

(** X16: what was uploaded is what is listed. After a successful
    upload into a project that had no article, the listing of the
    project has one entry per row of the sheet, in sheet order; the
    i-th entry gives [str] of the row's three cells, [order_index] i,
    status [pending], and neither HTML nor analysis. *)
Theorem listing_after_first_upload (E : Env) (w : World) (project_id : ident)
        (df : DataFrame) (total : Z) :
  snd (upload_excel E w project_id (Some df)) = inr total ->
  filter (in_project project_id) (articles w) = [] ->
  List.length (get_project_articles (fst (upload_excel E w project_id (Some df)))
                                    project_id)
  = List.length (rows df)
  /\ forall i row,
      nth_error (rows df) i = Some row ->
      exists s,
        nth_error (get_project_articles (fst (upload_excel E w project_id (Some df)))
                                        project_id) i = Some s
        /\ summary_from_url s = py_str (row "From")
        /\ summary_to_url s = py_str (row "To")
        /\ summary_main_kw s = py_str (row "Main KW")
        /\ summary_order_index s = Z.of_nat i
        /\ summary_status s = "pending"
        /\ has_html s = false
        /\ has_analysis s = false.
Proof.
  intros H Hnone.
  destruct (upload_excel_returns E w project_id (Some df) total H)
    as [project [df' [news [Hp [Hf [Hi [Ht Hw]]]]]]].
  injection Hf as <-.
  pose proof (iterrows_length df (rows df) 0%nat news Hi) as Hlen.
  assert (Hlist : get_project_articles (fst (upload_excel E w project_id (Some df)))
                                       project_id
                  = map summary (insert_articles E project_id (uuids w) (ticks w) news)).
  { unfold get_project_articles. rewrite Hw.
    cbn [articles fresh tick with_projects with_articles].
    rewrite filter_app, Hnone, insert_articles_in_project. cbn [app].
    rewrite order_by_index_of_sorted; [reflexivity|].
    apply (consecutive_indexes_sorted _ 0%nat (List.length (rows df))).
    now apply insert_articles_order with (df := df). }
  rewrite Hlist. split.
  - now rewrite length_map, insert_articles_length.
  - intros i row Hrow.
    pose proof (iterrows_nth df (rows df) 0%nat news i row Hi Hrow) as Hn.
    eexists. split.
    + rewrite nth_error_map, (insert_articles_nth E project_id news _ _ i _ Hn).
      reflexivity.
    + cbn. repeat split; reflexivity.
Qed.

Lemma listing_after_first_upload_witness :
  List.length
    (get_project_articles
       (fst (upload_excel (Sample.env [])
               (@history example_runtime (Sample.env []) [CreateProject "demo"])
               0%nat (Some Sample.sheet))) 0%nat)
  = List.length (rows Sample.sheet)
  /\ forall i row,
      nth_error (rows Sample.sheet) i = Some row ->
      exists s,
        nth_error
          (get_project_articles
             (fst (upload_excel (Sample.env [])
                     (@history example_runtime (Sample.env []) [CreateProject "demo"])
                     0%nat (Some Sample.sheet))) 0%nat) i = Some s
        /\ summary_from_url s = py_str (row "From")
        /\ summary_to_url s = py_str (row "To")
        /\ summary_main_kw s = py_str (row "Main KW")
        /\ summary_order_index s = Z.of_nat i
        /\ summary_status s = "pending"
        /\ has_html s = false
        /\ has_analysis s = false.
Proof.
  apply (listing_after_first_upload (Sample.env [])
           (@history example_runtime (Sample.env []) [CreateProject "demo"])
           0%nat Sample.sheet 2).
  - vm_compute. reflexivity.
  - reflexivity.
Defined.

Lemma sorted_summaries (l : list Article.t) :
  StronglySorted by_index l ->
  StronglySorted (fun s t => summary_order_index s <= summary_order_index t)
                 (map summary l).
Proof.
  induction 1 as [|a l _ IH Ha]; cbn [map]; constructor; [exact IH|].
  apply Forall_map. eapply Forall_impl; [|exact Ha]. now intros b Hb.
Qed.

(** X17: in every world the server can reach, the listing of a project
    has exactly one entry for each of its articles and no other (it is
    a rearrangement of their summaries), in ascending [order_index]; an
    entry in status [completed] reports an analysis, and an entry in
    status [pending] reports neither analysis nor HTML. *)
Theorem listing_is_complete_and_ordered {RT : PyRuntime} (E : Env) (w : World)
        (project_id : ident) :
  reachable E w ->
  Permutation (get_project_articles w project_id)
              (map summary (filter (in_project project_id) (articles w)))
  /\ List.length (get_project_articles w project_id)
     = List.length (filter (in_project project_id) (articles w))
  /\ StronglySorted (fun s t => summary_order_index s <= summary_order_index t)
                    (get_project_articles w project_id)
  /\ forall s,
      In s (get_project_articles w project_id) ->
      (exists a, In a (articles w) /\ Article.project_id a = project_id
                 /\ s = summary a)
      /\ (summary_status s = "completed" -> has_analysis s = true)
      /\ (summary_status s = "pending" -> has_analysis s = false /\ has_html s = false).
Proof.
  intros Hw. unfold get_project_articles.
  pose proof (order_by_index_perm (filter (in_project project_id) (articles w))) as Hperm.
  split; [now apply Permutation_map|].
  split; [rewrite length_map; now apply Permutation_length|].
  split; [apply sorted_summaries, order_by_index_sorted|].
  intros s Hs. apply in_map_iff in Hs. destruct Hs as [a [<- Ha]].
  apply (Permutation_in _ Hperm) in Ha. apply filter_In in Ha. destruct Ha as [Ha Hp].
  apply Nat.eqb_eq in Hp.
  pose proof (proj1 (Forall_forall _ _) (reachable_well_stored E w Hw) a Ha)
    as [Hpend [Hcomp _]].
  pose proof (reachable_settled E w Hw a Ha) as Hset.
  split; [now exists a|]. cbn [summary_status has_analysis has_html summary].
  split.
  - intros Hc. destruct (Article.analysis_results a); [reflexivity | now elim (Hcomp Hc)].
  - intros Hc. rewrite (Hpend Hc).
    destruct Hset as [[_ [-> _]] | [[Hs' _] | [Hs' _]]]; [split; reflexivity | |];
      rewrite Hc in Hs'; discriminate.
Qed.

Lemma listing_is_complete_and_ordered_witness :
  Permutation
    (get_project_articles (@history example_runtime Sample.flaky Sample.analysed_once)
                          0%nat)
    (map summary
         (filter (in_project 0%nat)
                 (articles (@history example_runtime Sample.flaky Sample.analysed_once))))
  /\ List.length
       (get_project_articles (@history example_runtime Sample.flaky Sample.analysed_once)
                             0%nat)
     = List.length
         (filter (in_project 0%nat)
                 (articles (@history example_runtime Sample.flaky Sample.analysed_once)))
  /\ StronglySorted (fun s t => summary_order_index s <= summary_order_index t)
       (get_project_articles (@history example_runtime Sample.flaky Sample.analysed_once)
                             0%nat)
  /\ forall s,
      In s (get_project_articles
              (@history example_runtime Sample.flaky Sample.analysed_once) 0%nat) ->
      (exists a,
          In a (articles (@history example_runtime Sample.flaky Sample.analysed_once))
          /\ Article.project_id a = 0%nat /\ s = summary a)
      /\ (summary_status s = "completed" -> has_analysis s = true)
      /\ (summary_status s = "pending" -> has_analysis s = false /\ has_html s = false).
Proof.
  apply (@listing_is_complete_and_ordered example_runtime Sample.flaky
           (@history example_runtime Sample.flaky Sample.analysed_once) 0%nat).
  apply history_reachable.
Defined.

(** X18: what was analysed is what is read back. When
    [analyze_article] returns a result for a stored article,
    [get_article] then gives the article in status [completed], with
    the dict of that result as its analysis, the seconds between the
    two clock readings as its processing time, and its URLs, keyword
    and [order_index] as they were. *)
Theorem get_article_after_analysis {RT : PyRuntime} (E : Env) (w : World)
        (article_id : ident) (request : AnalysisRequest.t) (article : Article.t)
        (result : AnalysisResult.t) :
  article_first w article_id = Some article ->
  snd (analyze_article E w article_id request) = inr result ->
  get_article (fst (analyze_article E w article_id request)) article_id
  = inr {| detail_id := Article.id article;
           detail_from_url := Article.from_url article;
           detail_to_url := Article.to_url article;
           detail_main_kw := Article.main_kw article;
           detail_status := "completed";
           detail_order_index := Article.order_index article;
           detail_processing_time :=
             Some (total_seconds (utcnow E (ticks w + 1) - utcnow E (ticks w)));
           detail_analysis := Some (AnalysisResult.dict result) |}.
Proof.
  intros Ha Hres.
  destruct (analyze_article_cases E w article_id request article Ha)
    as [[e Heq] | [r [[project [Heq _]] | [Heq _]]]]; rewrite Heq in Hres |- *;
    cbn [fst snd] in *; try discriminate.
  injection Hres as ->.
  unfold get_article.
  erewrite article_first_updated; [ | exact Ha | | reflexivity]; reflexivity.
Qed.

Lemma get_article_after_analysis_witness :
  get_article
    (fst (@analyze_article example_runtime Sample.flaky
            (@history example_runtime Sample.flaky Sample.ingest) 1%nat Sample.request))
    1%nat
  = inr {| detail_id := 1%nat;
           detail_from_url := "https://example.com/a";
           detail_to_url := "https://example.com/t";
           detail_main_kw := "243 ballistics";
           detail_status := "completed";
           detail_order_index := 0;
           detail_processing_time := Some (total_seconds (2800000 - 2100000));
           detail_analysis := Some (AnalysisResult.dict Sample.analysis) |}.
Proof.
  apply (@get_article_after_analysis example_runtime Sample.flaky
           (@history example_runtime Sample.flaky Sample.ingest) 1%nat Sample.request
           (Article.make 1%nat 0%nat "https://example.com/a" "https://example.com/t"
              "243 ballistics" None "pending" None None 700000 0)
           Sample.analysis).
  - vm_compute. reflexivity.
  - vm_compute. reflexivity.
Defined.

Lemma insert_by_created_perm (p : Project.t) (l : list Project.t) :
  Permutation (insert_by_created p l) (p :: l).
Proof.
  induction l as [|b l IH]; cbn; [reflexivity|].
  destruct (Project.created_at b <=? Project.created_at p); [reflexivity|].
  rewrite IH. apply perm_swap.
Qed.

Lemma insert_by_created_sorted (p : Project.t) (l : list Project.t) :
  StronglySorted latest_first l -> StronglySorted latest_first (insert_by_created p l).
Proof.
  induction 1 as [|b l Hl IH Hb]; cbn.
  - repeat constructor.
  - destruct (Project.created_at b <=? Project.created_at p) eqn:Hbp.
    + apply Z.leb_le in Hbp. constructor; [now constructor|].
      constructor; [exact Hbp|].
      eapply Forall_impl; [|exact Hb]. unfold latest_first. intros c Hc. lia.
    + apply Z.leb_gt in Hbp. constructor; [exact IH|].
      eapply Permutation_Forall; [symmetry; apply insert_by_created_perm|].
      constructor; [unfold latest_first; lia | exact Hb].
Qed.

(** X19: the list of projects has every stored project once, and no
    project comes before one created later. *)
Theorem projects_listed_latest_first (w : World) :
  Permutation (get_projects w) (projects w)
  /\ StronglySorted latest_first (get_projects w).
Proof.
  unfold get_projects. induction (projects w) as [|p l [IHp IHs]]; cbn.
  - split; constructor.
  - split.
    + rewrite insert_by_created_perm. now constructor.
    + now apply insert_by_created_sorted.
Qed.

Lemma find_app_none {A : Type} (f : A -> bool) (l l' : list A) :
  find f l = None -> find f (l ++ l') = find f l'.
Proof.
  induction l as [|y l IH]; cbn; [reflexivity|].
  destruct (f y); [discriminate | exact IH].
Qed.

(** X20: a created project can be looked up at once. In every world
    the server can reach, [create_project] returns a project with no
    articles counted and status [created] under a key no project had;
    looking that key up gives the project, looking any other key up
    gives what it gave before, and no article is touched. *)
Theorem created_project_is_found {RT : PyRuntime} (E : Env) (w : World) (name : string) :
  reachable E w ->
  exists p,
    snd (create_project E w name) = inr p
    /\ Project.name p = name
    /\ Project.total_articles p = 0
    /\ Project.completed_articles p = 0
    /\ Project.status p = "created"
    /\ project_first w (Project.id p) = None
    /\ project_first (fst (create_project E w name)) (Project.id p) = Some p
    /\ (forall k, k <> Project.id p ->
                  project_first (fst (create_project E w name)) k = project_first w k)
    /\ articles (fst (create_project E w name)) = articles w.
Proof.
  intros Hw. apply reachable_projects_known in Hw. destruct Hw as [_ Hkeys].
  eexists. split; [reflexivity|]. cbn [snd fst create_project Project.name
    Project.total_articles Project.completed_articles Project.status Project.id].
  repeat (split; [reflexivity|]).
  assert (Hnew : project_first w (uuids w) = None).
  { unfold project_first.
    destruct (find _ (projects w)) as [p|] eqn:Hp; [|reflexivity].
    apply find_some in Hp. destruct Hp as [Hin Hk]. apply Nat.eqb_eq in Hk.
    pose proof (proj1 (Forall_forall _ _) Hkeys p Hin) as Hb. cbn beta in Hb. lia. }
  split; [exact Hnew|]. unfold project_first in *.
  cbn [projects fresh tick with_projects articles].
  split; [|split; [|reflexivity]].
  - rewrite (find_app_none _ _ _ Hnew). cbn. now rewrite Nat.eqb_refl.
  - intros k Hk.
    destruct (find (fun p => Nat.eqb (Project.id p) k) (projects w)) as [p|] eqn:Hp.
    + now apply find_app_some.
    + rewrite (find_app_none _ _ _ Hp). cbn.
      destruct (Nat.eqb (uuids w) k) eqn:Hu; [|reflexivity].
      apply Nat.eqb_eq in Hu. congruence.
Qed.

Lemma created_project_is_found_witness :
  exists p,
    snd (create_project Sample.flaky
           (@history example_runtime Sample.flaky Sample.analysed_once) "second")
    = inr p
    /\ Project.name p = "second"
    /\ Project.total_articles p = 0
    /\ Project.completed_articles p = 0
    /\ Project.status p = "created"
    /\ project_first (@history example_runtime Sample.flaky Sample.analysed_once)
                     (Project.id p) = None
    /\ project_first
         (fst (create_project Sample.flaky
                 (@history example_runtime Sample.flaky Sample.analysed_once) "second"))
         (Project.id p) = Some p
    /\ (forall k, k <> Project.id p ->
                  project_first
                    (fst (create_project Sample.flaky
                            (@history example_runtime Sample.flaky Sample.analysed_once)
                            "second")) k
                  = project_first
                      (@history example_runtime Sample.flaky Sample.analysed_once) k)
    /\ articles (fst (create_project Sample.flaky
                        (@history example_runtime Sample.flaky Sample.analysed_once)
                        "second"))
       = articles (@history example_runtime Sample.flaky Sample.analysed_once).
Proof.
  apply (@created_project_is_found example_runtime Sample.flaky
           (@history example_runtime Sample.flaky Sample.analysed_once) "second").
  apply history_reachable.
Defined.

(** * Failed and completed analyses, once more *)

(** X21: a failed analysis changes the status and the HTML only. When
    the analyzer client raises, be it for a timeout or a connection
    failure, a status other than 200 or an answer of the wrong shape,
    the caller gets an [HTTPException] 500 reporting that exception,
    the article is stored in status [error] with the analysis results
    and the processing time it had before, and no project is
    changed. *)
Theorem failed_analysis_keeps_results_and_counter {RT : PyRuntime} (E : Env) (w : World)
        (article_id : ident) (request : AnalysisRequest.t) (article : Article.t)
        (e : exn) :
  article_first w article_id = Some article ->
  snd (analyze_with_claude E (tick 1 w) (AnalysisRequest.html_content request)
         (Article.to_url article) (Article.main_kw article)
         (AnalysisRequest.custom_prompt request)
         (count_or_3 (AnalysisRequest.opportunity_count request))) = inl e ->
  snd (analyze_article E w article_id request)
  = inl (HTTPException 500 "Analysis failed: " (Some e))
  /\ projects (fst (analyze_article E w article_id request)) = projects w
  /\ exists a,
      article_first (fst (analyze_article E w article_id request)) article_id = Some a
      /\ Article.status a = "error"
      /\ Article.analysis_results a = Article.analysis_results article
      /\ Article.processing_time a = Article.processing_time article.
Proof.
  intros Ha Hr.
  rewrite (analyze_article_raises E w article_id request article e Ha Hr).
  cbn [fst snd]. split; [reflexivity|]. split; [reflexivity|].
  eexists. split; [eapply article_first_updated; [exact Ha | | reflexivity]; reflexivity|].
  repeat split; reflexivity.
Qed.

Lemma failed_analysis_keeps_results_and_counter_witness :
  snd (@analyze_article example_runtime (Sample.env [Some Sample.analysis_response])
         (@history example_runtime (Sample.env [Some Sample.analysis_response])
                   Sample.analysed_once)
         1%nat Sample.request)
  = inl (HTTPException 500 "Analysis failed: " (Some RequestError))
  /\ projects
       (fst (@analyze_article example_runtime (Sample.env [Some Sample.analysis_response])
               (@history example_runtime (Sample.env [Some Sample.analysis_response])
                         Sample.analysed_once)
               1%nat Sample.request))
     = projects (@history example_runtime (Sample.env [Some Sample.analysis_response])
                          Sample.analysed_once)
  /\ exists a,
      article_first
        (fst (@analyze_article example_runtime (Sample.env [Some Sample.analysis_response])
                (@history example_runtime (Sample.env [Some Sample.analysis_response])
                          Sample.analysed_once)
                1%nat Sample.request)) 1%nat = Some a
      /\ Article.status a = "error"
      /\ Article.analysis_results a = Some (AnalysisResult.dict Sample.analysis)
      /\ Article.processing_time a = Some (total_seconds 700000).
Proof.
  eapply (@failed_analysis_keeps_results_and_counter example_runtime
            (Sample.env [Some Sample.analysis_response])
            (@history example_runtime (Sample.env [Some Sample.analysis_response])
                      Sample.analysed_once)
            1%nat Sample.request
            (Article.make 1%nat 0%nat "https://example.com/a" "https://example.com/t"
               "243 ballistics" (Some "<p>Some html</p>") "completed"
               (Some (AnalysisResult.dict Sample.analysis))
               (Some (total_seconds 700000)) 700000 0)
            RequestError).
  - vm_compute. reflexivity.
  - vm_compute. reflexivity.
Defined.

(** X22: in every world the server can reach, when [analyze_article]
    returns a result the project's [completed_articles] it wrote is
    one less than the number of the project's articles then in status
    [completed]: the count is taken before the commit that stores the
    new status. *)
Theorem counter_written_before_commit {RT : PyRuntime} (E : Env) (w : World)
        (article_id : ident) (request : AnalysisRequest.t) (result : AnalysisResult.t) :
  reachable E w ->
  snd (analyze_article E w article_id request) = inr result ->
  exists article project,
    article_first w article_id = Some article
    /\ project_first (fst (analyze_article E w article_id request))
                     (Article.project_id article) = Some project
    /\ Project.completed_articles project
       = count_completed (fst (analyze_article E w article_id request))
                         (Article.project_id article) - 1.
Proof.
  intros Hw Hres.
  destruct (completed_articles_one_short E w article_id request result Hw Hres)
    as [article [project [Ha [Hp Hc]]]].
  exists article, project. split; [exact Ha|]. split; [exact Hp | lia].
Qed.

Lemma counter_written_before_commit_witness :
  exists article project,
    article_first (@history example_runtime Sample.flaky Sample.ingest) 1%nat
    = Some article
    /\ project_first
         (fst (@analyze_article example_runtime Sample.flaky
                 (@history example_runtime Sample.flaky Sample.ingest)
                 1%nat Sample.request))
         (Article.project_id article) = Some project
    /\ Project.completed_articles project
       = count_completed
           (fst (@analyze_article example_runtime Sample.flaky
                   (@history example_runtime Sample.flaky Sample.ingest)
                   1%nat Sample.request))
           (Article.project_id article) - 1.
Proof.
  apply (@counter_written_before_commit example_runtime Sample.flaky
           (@history example_runtime Sample.flaky Sample.ingest) 1%nat Sample.request
           Sample.analysis).
  - apply history_reachable.
  - vm_compute. reflexivity.
Defined.
